(** * Verification of the username-availability checker (instagram.py)

    A shallow embedding of the program's candidate generator, probe client,
    checkpoint store, worker loop and orchestrator, with the properties of
    its specification stated and settled against it. *)

From Stdlib Require Import ZArith Ascii String.
From stdpp Require Import gmap strings list fin_maps sorting.

Set Warnings "-register-all".
Local Open Scope string_scope.
Local Open Scope list_scope.
Local Open Scope stdpp_scope.
Local Open Scope nat_scope.

(** ** Python strings

    A [str] is a [string]; iterating over it walks its characters. *)

Abbreviation chars := list_ascii_of_string (only parsing).
Abbreviation join := string_of_list_ascii (only parsing).

(** [is_prefix p s]: the character list [s] begins with [p]. *)
Fixpoint is_prefix (p s : list ascii) : bool :=
  match p, s with
  | [], _ => true
  | _ :: _, [] => false
  | a :: p', b :: s' => Ascii.eqb a b && is_prefix p' s'
  end.

(** [has_infix p s]: [p] occurs somewhere inside [s]. *)
Fixpoint has_infix (p s : list ascii) : bool :=
  is_prefix p s ||
  match s with
  | [] => false
  | _ :: s' => has_infix p s'
  end.

(** [s.startswith(p)] *)
Definition startswith (s p : string) : bool := is_prefix (chars p) (chars s).

(** [s.endswith(p)] *)
Definition endswith (s p : string) : bool :=
  is_prefix (reverse (chars p)) (reverse (chars s)).

(** [p in s] for strings: substring test. *)
Definition contains (p s : string) : bool := has_infix (chars p) (chars s).

(** [c in s] for a single character [c]. *)
Definition char_in (c : ascii) (s : string) : bool := bool_decide (c ∈ chars s).

(** ** Python values

    The values [json.load] can produce; [start_after] and the checkpoint
    value are of this type. *)

Inductive pyvalue :=
| PyNone
| PyBool (b : bool)
| PyInt (z : Z)
| PyFloat (literal : string)
| PyStr (s : string)
| PyList (items : list pyvalue)
| PyDict (entries : gmap string pyvalue).

(** [v is None] *)
Definition is_None (v : pyvalue) : bool :=
  match v with
  | PyNone => true
  | _ => false
  end.

(** [s == v] for a string [s]: true only for the same string. *)
Definition str_eq (s : string) (v : pyvalue) : bool :=
  match v with
  | PyStr t => bool_decide (s = t)
  | _ => false
  end.

(** ** Configuration: the module constants ALLOWED, MIN_LEN, MAX_LEN

    The two bounds are lengths, natural numbers.  Module [IntBounds]
    below has them as Python has them, as integers that can be negative. *)

Record config := Config {
  ALLOWED : string;
  MIN_LEN : nat;
  MAX_LEN : nat
}.

(** The constants as the source sets them. *)
Definition default_config : config :=
  {| ALLOWED := "abcdefghijklmnopqrstuvwxyz0123456789._";
     MIN_LEN := 1;
     MAX_LEN := 4 |}.

(** ** is_valid_instagram_username *)

Definition is_valid_instagram_username (cfg : config) (username : string) : bool :=
  if negb ((MIN_LEN cfg <=? String.length username)
           && (String.length username <=? MAX_LEN cfg)) then false
  else if startswith username "." || endswith username "." then false
  else if contains ".." username then false
  else forallb (fun c => char_in c (ALLOWED cfg)) (chars username).

(** ** generate_usernames *)

(** [range(lo, hi)] *)
Definition range (lo hi : nat) : list nat := seq lo (hi - lo).

(** [itertools.product(pool, repeat=n)]: all tuples of [n] characters of
    [pool], the rightmost position advancing fastest. *)
Fixpoint product (pool : list ascii) (repeat : nat) : list (list ascii) :=
  match repeat with
  | 0 => [[]]
  | S n => pool ≫= (fun c => (c ::.) <$> product pool n)
  end.

(** The inner [for combo in itertools.product(...)] loop.  It returns the
    usernames yielded while walking [combos] and the value of the local
    variable [started] when the loop ends. *)
Fixpoint inner_loop (cfg : config) (start_after : pyvalue)
    (started : bool) (combos : list (list ascii)) : list string * bool :=
  match combos with
  | [] => ([], started)
  | combo :: combos' =>
      let username := join combo in
      if negb (is_valid_instagram_username cfg username) then
        inner_loop cfg start_after started combos'
      else if negb started then
        inner_loop cfg start_after
          (if str_eq username start_after then true else started)
          combos'
      else
        let '(ys, st) := inner_loop cfg start_after started combos' in
        (username :: ys, st)
  end.

(** The outer [for length in range(MIN_LEN, MAX_LEN + 1)] loop. *)
Fixpoint outer_loop (cfg : config) (start_after : pyvalue)
    (started : bool) (lengths : list nat) : list string :=
  match lengths with
  | [] => []
  | length :: lengths' =>
      let '(ys, st) :=
        inner_loop cfg start_after started
          (product (chars (ALLOWED cfg)) length) in
      ys ++ outer_loop cfg start_after st lengths'
  end.

(** [generate_usernames(start_after)]: the sequence of values the generator
    yields, in order, until it is exhausted. *)
Definition generate_usernames (cfg : config) (start_after : pyvalue)
    : list string :=
  outer_loop cfg start_after (is_None start_after)
    (range (MIN_LEN cfg) (MAX_LEN cfg + 1)).

(** ** The order and the validity rules of the specification *)

(** Position of the first occurrence of [c] in the alphabet. *)
Fixpoint index_in (pool : list ascii) (c : ascii) : nat :=
  match pool with
  | [] => 0
  | a :: pool' => if Ascii.eqb a c then 0 else S (index_in pool' c)
  end.

Definition alphabet_index (cfg : config) (c : ascii) : nat :=
  index_in (chars (ALLOWED cfg)) c.

(** Lexicographic comparison of two character lists by an index function. *)
Fixpoint lex_ltb (idx : ascii -> nat) (u v : list ascii) : bool :=
  match u, v with
  | [], [] => false
  | [], _ :: _ => true
  | _ :: _, [] => false
  | a :: u', b :: v' =>
      (idx a <? idx b) || ((idx a =? idx b) && lex_ltb idx u' v')
  end.

(** Length first, then lexicographic by alphabet index. *)
Definition candidate_ltb (cfg : config) (u v : string) : bool :=
  (String.length u <? String.length v)
  || ((String.length u =? String.length v)
      && lex_ltb (alphabet_index cfg) (chars u) (chars v)).

Definition candidate_lt (cfg : config) (u v : string) : Prop :=
  candidate_ltb cfg u v = true.

(** The validity rules in the words of the specification: every character
    in the alphabet, length within the bounds, no leading or trailing dot,
    no two dots in a row. *)
Definition ValidCandidate (cfg : config) (u : string) : Prop :=
  (forall c, c ∈ chars u -> c ∈ chars (ALLOWED cfg))
  /\ MIN_LEN cfg <= String.length u <= MAX_LEN cfg
  /\ ~ (exists t, chars u = "."%char :: t)
  /\ ~ (exists t, chars u = t ++ ["."%char])
  /\ ~ (exists p q, chars u = p ++ "."%char :: "."%char :: q).

(** Everything after the first occurrence of [x] in [l]; nothing when [x]
    does not occur. *)
Fixpoint skip_through (x : string) (l : list string) : list string :=
  match l with
  | [] => []
  | y :: l' => if bool_decide (y = x) then l' else skip_through x l'
  end.

(** A configuration whose alphabet repeats a character. *)
Definition aa_config : config :=
  {| ALLOWED := "aa"; MIN_LEN := 1; MAX_LEN := 1 |}.

(** A small configuration used for concrete runs. *)
Definition ab_config : config :=
  {| ALLOWED := "ab"; MIN_LEN := 1; MAX_LEN := 2 |}.

(** The candidates walked by the two loops, before the validity filter. *)
Definition all_usernames (cfg : config) : list string :=
  range (MIN_LEN cfg) (MAX_LEN cfg + 1)
    ≫= (fun n => join <$> product (chars (ALLOWED cfg)) n).

Definition valid_usernames (cfg : config) : list string :=
  filter (fun u => is_valid_instagram_username cfg u = true) (all_usernames cfg).

(** ** The process: outcomes, environment and state *)

(** Exceptions.  [except Exception] catches the first kind only. *)
Inductive exn :=
| Exception (name : string)
| SystemExit.

Definition is_Exception (e : exn) : bool :=
  match e with
  | Exception _ => true
  | SystemExit => false
  end.

(** How a call ends: it returns, it raises, or it never comes back (the
    process is killed or the call hangs). *)
Inductive outcome (A : Type) :=
| Returned (a : A)
| Raised (e : exn)
| Diverged.
Arguments Returned {A} a.
Arguments Raised {A} e.
Arguments Diverged {A}.

(** What [requests.get] meets. *)
Inductive http_result :=
| Response (status_code : Z)
| RequestFailed
| NoAnswer.

(** Argument of [time.sleep]: a fixed number of seconds, or
    [random.uniform(lo, hi)] with the bounds in tenths of a second. *)
Inductive duration :=
| Seconds (n : nat)
| Uniform (lo_tenths hi_tenths : nat).

(** A path of the file system that exists: a file that cannot be opened
    (a directory, no permission), or a file with its text. *)
Inductive node :=
| Unreadable
| File (text : string).

(** Observable actions, in the order they happen. *)
Inductive event :=
| EvAssignLastChecked (username : string)
| EvRequest (url user_agent : string)
| EvPrint (line : string)
| EvSleep (d : duration)
| EvWrite (data : string)
| EvFlush
| EvSaveCheckpoint (value : option string)
| EvStartSaver
| EvStopSaver.

(** What the program does not control: the command line ([None] when
    [parse_args] exits: a usage error, [--help]), the remote service, the
    random source, failing file operations, signals, and the [json]
    library.  Oracles that can change over time take the clock. *)
Record environment := Environment {
  argv_threads : option Z;
  http_get : nat -> string -> string -> http_result;
  random_index : nat -> nat;
  io_fails : nat -> bool;
  short_write : nat -> nat;
  sigterms : nat;
  json_dumps : pyvalue -> string;
  json_loads : string -> option pyvalue
}.

(** The state of the process: the module globals, the files, and the log
    of the observable actions of the main thread and of the workers.  The
    periodic saves of the background thread are not part of the log. *)
Record world := World {
  clock : nat;
  last_checked : option string;
  saver_alive : bool;
  saver_stop : bool;
  fs : gmap string node;
  output_file : list string;
  trace : list event
}.

Definition set_clock (n : nat) (w : world) : world :=
  World n (last_checked w) (saver_alive w) (saver_stop w) (fs w)
        (output_file w) (trace w).

Definition set_last_checked (v : option string) (w : world) : world :=
  World (clock w) v (saver_alive w) (saver_stop w) (fs w)
        (output_file w) (trace w).

Definition set_saver (alive stop : bool) (w : world) : world :=
  World (clock w) (last_checked w) alive stop (fs w)
        (output_file w) (trace w).

Definition set_fs (m : gmap string node) (w : world) : world :=
  World (clock w) (last_checked w) (saver_alive w) (saver_stop w) m
        (output_file w) (trace w).

Definition set_output_file (l : list string) (w : world) : world :=
  World (clock w) (last_checked w) (saver_alive w) (saver_stop w) (fs w)
        l (trace w).

Definition set_trace (t : list event) (w : world) : world :=
  World (clock w) (last_checked w) (saver_alive w) (saver_stop w) (fs w)
        (output_file w) t.

(** A computation of the program: it transforms the state and ends in an
    outcome. *)
Definition py (A : Type) : Type := world -> world * outcome A.

#[global] Instance py_ret : MRet py := fun A a w => (w, Returned a).

#[global] Instance py_bind : MBind py := fun A B k m w =>
  match m w with
  | (w', Returned a) => k a w'
  | (w', Raised e) => (w', Raised e)
  | (w', Diverged) => (w', Diverged)
  end.

Definition raise {A : Type} (e : exn) : py A := fun w => (w, Raised e).

(** [try: m  except Exception: handler] *)
Definition try_except {A : Type} (m handler : py A) : py A :=
  fun w =>
    match m w with
    | (w', Raised e) => if is_Exception e then handler w' else (w', Raised e)
    | r => r
    end.

(** [try: m  finally: fin] *)
Definition try_finally {A : Type} (m : py A) (fin : py unit) : py A :=
  fun w =>
    match m w with
    | (w', Diverged) => (w', Diverged)
    | (w', r) =>
        match fin w' with
        | (w'', Returned _) => (w'', r)
        | (w'', Raised e) => (w'', Raised e)
        | (w'', Diverged) => (w'', Diverged)
        end
    end.

Definition emit (e : event) : py unit :=
  fun w => (set_trace (trace w ++ [e]) w, Returned tt).

(** [print(line)] *)
Definition print (line : string) : py unit := emit (EvPrint line).

(** [time.sleep(d)] *)
Definition sleep (d : duration) : py unit := emit (EvSleep d).

Definition newline : string := String (ascii_of_nat 10) EmptyString.

(** ** The program *)

Definition CHECKPOINT_FILE : string := ".instagram_checkpoint.json".

Definition USER_AGENTS : list string :=
  [ "Mozilla/5.0 (Windows NT 10.0; Win64; x64)";
    "Mozilla/5.0 (Macintosh; Intel Mac OS X 10_15_7)";
    "Mozilla/5.0 (iPhone; CPU iPhone OS 14_0)";
    "Mozilla/5.0 (Linux; Android 11)" ].

Definition py_of_option (v : option string) : pyvalue :=
  match v with
  | Some s => PyStr s
  | None => PyNone
  end.

(** [f"https://www.instagram.com/{username}/"] *)
Definition profile_url (username : string) : string :=
  "https://www.instagram.com/" +:+ username +:+ "/".

Section Program.

Variable cfg : config.
Variable env : environment.

(** *** File system and json *)

(** [os.path.exists(path)] *)
Definition os_path_exists (path : string) : py bool :=
  fun w => (w, Returned (bool_decide (is_Some (fs w !! path)))).

(** [open(path, "r")] and reading the text. *)
Definition read_text (path : string) : py string :=
  fun w =>
    match fs w !! path with
    | Some (File text) => (w, Returned text)
    | Some Unreadable => (w, Raised (Exception "OSError"))
    | None => (w, Raised (Exception "FileNotFoundError"))
    end.

(** [json.load] on the text of the file. *)
Definition json_load (text : string) : py pyvalue :=
  match json_loads env text with
  | Some v => mret v
  | None => raise (Exception "JSONDecodeError")
  end.

(** [data.get(key)]: only a dict has the method. *)
Definition py_get (data : pyvalue) (key : string) : py pyvalue :=
  match data with
  | PyDict d => mret (default PyNone (d !! key))
  | _ => raise (Exception "AttributeError")
  end.

(** [open(path, "w")]: creates the file or truncates it. *)
Definition open_for_writing (path : string) : py unit :=
  fun w =>
    if io_fails env (clock w) then
      (set_clock (S (clock w)) w, Raised (Exception "OSError"))
    else
      (set_clock (S (clock w)) (set_fs (<[path := File ""]> (fs w)) w),
       Returned tt).

(** [json.dump(data, f)] and closing [f]; a failing write leaves a
    beginning of the text. *)
Definition json_dump (data : pyvalue) (path : string) : py unit :=
  fun w =>
    let text := json_dumps env data in
    if io_fails env (clock w) then
      (set_clock (S (clock w))
         (set_fs (<[path := File (substring 0 (short_write env (clock w)) text)]>
                    (fs w)) w),
       Raised (Exception "OSError"))
    else
      (set_clock (S (clock w)) (set_fs (<[path := File text]> (fs w)) w),
       Returned tt).

(** [os.replace(src, dst)] *)
Definition os_replace (src dst : string) : py unit :=
  fun w =>
    if io_fails env (clock w) then
      (set_clock (S (clock w)) w, Raised (Exception "OSError"))
    else
      match fs w !! src with
      | Some n =>
          (set_clock (S (clock w))
             (set_fs (<[dst := n]> (delete src (fs w))) w),
           Returned tt)
      | None =>
          (set_clock (S (clock w)) w, Raised (Exception "FileNotFoundError"))
      end.

(** *** load_checkpoint, save_checkpoint *)

Definition load_checkpoint : py pyvalue :=
  r ← try_except
        (present ← os_path_exists CHECKPOINT_FILE;
         if present : bool then
           text ← read_text CHECKPOINT_FILE;
           data ← json_load text;
           v ← py_get data "last";
           mret (Some v)
         else mret None)
        (mret None);
  mret (default PyNone r).

(** The body of the [try] of [save_checkpoint]. *)
Definition save_checkpoint_attempt : py unit :=
  fun w =>
    let data := PyDict {[ "last" := py_of_option (last_checked w) ]} in
    let tmp := CHECKPOINT_FILE +:+ ".tmp" in
    (open_for_writing tmp;;
     json_dump data tmp;;
     os_replace tmp CHECKPOINT_FILE) w.

Definition save_checkpoint : py unit :=
  fun w =>
    (emit (EvSaveCheckpoint (last_checked w));;
     try_except save_checkpoint_attempt (mret tt)) w.

(** Two threads inside [save_checkpoint].  Its file operations are under
    no lock and every call uses the same temporary path, and the saver
    thread, the main thread and a worker can be inside it at the same
    time.  [save_checkpoint] above is a call that runs alone; this is the
    call of one thread when a second thread runs its own [open(tmp, "w")]
    after the first has written and closed the temporary file and before
    it calls [os.replace]. *)
Definition save_checkpoint_overlapped : py unit :=
  fun w =>
    let data := PyDict {[ "last" := py_of_option (last_checked w) ]} in
    let tmp := CHECKPOINT_FILE +:+ ".tmp" in
    (emit (EvSaveCheckpoint (last_checked w));;
     try_except
       (open_for_writing tmp;;
        json_dump data tmp;;
        try_except (open_for_writing tmp) (mret tt);;
        os_replace tmp CHECKPOINT_FILE)
       (mret tt)) w.

(** *** The background saver and the exit hook *)

Definition start_checkpoint_saver : py unit :=
  fun w =>
    if negb (saver_alive w) then emit EvStartSaver (set_saver true false w)
    else (w, Returned tt).

Definition stop_checkpoint_saver : py unit :=
  fun w => emit EvStopSaver (set_saver false true w).

Definition _handle_exit : py unit :=
  try_except stop_checkpoint_saver (mret tt);;
  try_except save_checkpoint (mret tt).

(** *** check_username *)

(** [random.choice(l)] *)
Definition random_choice (l : list string) : py string :=
  fun w =>
    (w, Returned (default "" (l !! (random_index env (clock w) mod length l)))).

(** [requests.get(url, headers={"User-Agent": ua}, timeout=10).status_code] *)
Definition requests_get (url user_agent : string) : py Z :=
  fun w =>
    let w' :=
      set_clock (S (clock w))
        (set_trace (trace w ++ [EvRequest url user_agent]) w) in
    match http_get env (clock w) url user_agent with
    | Response status_code => (w', Returned status_code)
    | RequestFailed => (w', Raised (Exception "RequestException"))
    | NoAnswer => (w', Diverged)
    end.

Definition check_username (username : string) : py string :=
  let url := profile_url username in
  user_agent ← random_choice USER_AGENTS;
  try_except
    (status_code ← requests_get url user_agent;
     if (status_code =? 404)%Z then mret "available"
     else if (status_code =? 200)%Z then mret "taken"
     else if ((status_code =? 403) || (status_code =? 429))%Z then
       mret "blocked"
     else mret "unknown")
    (mret "error").

(** *** worker *)

Definition assign_last_checked (username : string) : py unit :=
  fun w => emit (EvAssignLastChecked username)
             (set_last_checked (Some username) w).

(** [output_file.write(data)] *)
Definition file_write (data : string) : py unit :=
  fun w => emit (EvWrite data) (set_output_file (output_file w ++ [data]) w).

(** [output_file.flush()] *)
Definition file_flush : py unit := emit EvFlush.

(** [worker(username_generator, output_file)].  The generator is the list
    of the values it still has to yield; [next] takes its head, and an
    empty list is [StopIteration].  This is a worker that runs on its own:
    what other threads do to the generator and to [last_checked] in the
    meantime is not interleaved with its actions. *)
Fixpoint worker (username_generator : list string) : py unit :=
  match username_generator with
  | [] => mret tt
  | username :: rest =>
      assign_last_checked username;;
      result ← check_username username;
      continue ←
        (if String.eqb result "available" then
           print ("[AVAILABLE] " +:+ username);;
           file_write (username +:+ newline);;
           file_flush;;
           try_except save_checkpoint (mret tt);;
           mret false
         else if String.eqb result "taken" then
           print ("[TAKEN] " +:+ username);;
           mret false
         else if String.eqb result "blocked" then
           print "[RATE LIMIT] Sleeping 90 seconds...";;
           sleep (Seconds 90);;
           mret true
         else mret false);
      (if continue : bool then mret tt else sleep (Uniform 8 15));;
      worker rest
  end.

(** *** main *)

Definition parse_args : py Z :=
  match argv_threads env with
  | Some n => mret n
  | None => raise SystemExit
  end.

(** [open("available_instagram.txt", "a")] *)
Definition open_output : py unit :=
  fun w =>
    if io_fails env (clock w) then
      (set_clock (S (clock w)) w, Raised (Exception "OSError"))
    else (set_clock (S (clock w)) w, Returned tt).

(** [ThreadPoolExecutor(max_workers=n)] *)
Definition thread_pool_executor (max_workers : Z) : py unit :=
  if (max_workers <=? 0)%Z then raise (Exception "ValueError") else mret tt.

(** A task of the pool: what it raises stays in its future. *)
Definition in_future (task : py unit) : py unit :=
  fun w =>
    match task w with
    | (w', Raised _) => (w', Returned tt)
    | r => r
    end.

(** One schedule of the pool: the workers run one after the other, so the
    first one drains the shared generator and the others find it empty. *)
Fixpoint sequential_pool (threads : nat) (usernames : list string) : py unit :=
  match threads with
  | 0 => mret tt
  | S n => in_future (worker usernames);; sequential_pool n []
  end.

(** SIGTERM runs the registered handler in the main thread and returns to
    the interrupted code. *)
Fixpoint deliver_sigterms (n : nat) : py unit :=
  match n with
  | 0 => mret tt
  | S n' => _handle_exit;; deliver_sigterms n'
  end.

(** The [try] block of [main], for any behaviour [pool] of the thread
    pool.  The signals of the environment arrive while main waits for the
    pool. *)
Definition main_try_block (pool : nat -> list string -> py unit)
    (threads : Z) (start_after : pyvalue) : py unit :=
  let usernames := generate_usernames cfg start_after in
  open_output;;
  thread_pool_executor threads;;
  pool (Z.to_nat threads) usernames;;
  deliver_sigterms (sigterms env).

(** The [finally] block of [main]. *)
Definition main_finally_block : py unit :=
  try_except stop_checkpoint_saver (mret tt);;
  try_except save_checkpoint (mret tt).

Definition main (pool : nat -> list string -> py unit) : py unit :=
  threads ← parse_args;
  start_after ← load_checkpoint;
  start_checkpoint_saver;;
  try_finally (main_try_block pool threads start_after) main_finally_block.

(** Running the file as a script: [main()], then the hook registered with
    [atexit] when the interpreter exits. *)
Definition run_script (pool : nat -> list string -> py unit) : py unit :=
  fun w =>
    match main pool w with
    | (w', Diverged) => (w', Diverged)
    | (w', r) =>
        match _handle_exit w' with
        | (w'', Diverged) => (w'', Diverged)
        | (w'', _) => (w'', r)
        end
    end.

End Program.

(** ** The generator over Python's integers

    MIN_LEN and MAX_LEN are Python ints, and the source does not check
    them.  This module repeats the generator with integer bounds:
    [range] counts over the integers, [itertools.product] raises
    [ValueError] for a negative [repeat], and a generator is the list of
    the values it yields together with the way it ends ([Returned tt] is
    [StopIteration]).  With bounds that are not negative it yields what
    [generate_usernames] above yields ([int_generate_usernames]). *)

Module IntBounds.

Record config := Config {
  ALLOWED : string;
  MIN_LEN : Z;
  MAX_LEN : Z
}.

(** The constants as the source sets them. *)
Definition default_config : config :=
  {| ALLOWED := "abcdefghijklmnopqrstuvwxyz0123456789._";
     MIN_LEN := 1;
     MAX_LEN := 4 |}.

Definition is_valid_instagram_username (cfg : config) (username : string)
    : bool :=
  if negb ((MIN_LEN cfg <=? Z.of_nat (String.length username))%Z
           && (Z.of_nat (String.length username) <=? MAX_LEN cfg)%Z) then false
  else if startswith username "." || endswith username "." then false
  else if contains ".." username then false
  else forallb (fun c => char_in c (ALLOWED cfg)) (chars username).

(** [range(lo, hi)] *)
Definition range (lo hi : Z) : list Z :=
  (fun k => (lo + Z.of_nat k)%Z) <$> seq 0 (Z.to_nat (hi - lo)).

(** [itertools.product(pool, repeat=n)] *)
Definition product (pool : list ascii) (repeat : Z)
    : outcome (list (list ascii)) :=
  if (repeat <? 0)%Z then Raised (Exception "ValueError")
  else Returned (product pool (Z.to_nat repeat)).

Fixpoint inner_loop (cfg : config) (start_after : pyvalue)
    (started : bool) (combos : list (list ascii)) : list string * bool :=
  match combos with
  | [] => ([], started)
  | combo :: combos' =>
      let username := join combo in
      if negb (is_valid_instagram_username cfg username) then
        inner_loop cfg start_after started combos'
      else if negb started then
        inner_loop cfg start_after
          (if str_eq username start_after then true else started)
          combos'
      else
        let '(ys, st) := inner_loop cfg start_after started combos' in
        (username :: ys, st)
  end.

Fixpoint outer_loop (cfg : config) (start_after : pyvalue)
    (started : bool) (lengths : list Z) : list string * outcome unit :=
  match lengths with
  | [] => ([], Returned tt)
  | length :: lengths' =>
      match product (chars (ALLOWED cfg)) length with
      | Returned combos =>
          let '(ys, st) := inner_loop cfg start_after started combos in
          let '(zs, r) := outer_loop cfg start_after st lengths' in
          (ys ++ zs, r)
      | Raised e => ([], Raised e)
      | Diverged => ([], Diverged)
      end
  end.

(** [generate_usernames(start_after)]: what the generator yields, and how
    it ends. *)
Definition generate_usernames (cfg : config) (start_after : pyvalue)
    : list string * outcome unit :=
  outer_loop cfg start_after (is_None start_after)
    (range (MIN_LEN cfg) (MAX_LEN cfg + 1)).

(** The validity rules in the words of the specification. *)
Definition ValidCandidate (cfg : config) (u : string) : Prop :=
  (forall c, c ∈ chars u -> c ∈ chars (ALLOWED cfg))
  /\ (MIN_LEN cfg <= Z.of_nat (String.length u) <= MAX_LEN cfg)%Z
  /\ ~ (exists t, chars u = "."%char :: t)
  /\ ~ (exists t, chars u = t ++ ["."%char])
  /\ ~ (exists p q, chars u = p ++ "."%char :: "."%char :: q).

(** A configuration with a negative lower bound. *)
Definition negative_config : config :=
  {| ALLOWED := "ab"; MIN_LEN := -1; MAX_LEN := 1 |}.

End IntBounds.

(** The same alphabet with the bounds as lengths; a negative bound counts
    as 0. *)
Definition natural_config (cfg : IntBounds.config) : config :=
  {| ALLOWED := IntBounds.ALLOWED cfg;
     MIN_LEN := Z.to_nat (IntBounds.MIN_LEN cfg);
     MAX_LEN := Z.to_nat (IntBounds.MAX_LEN cfg) |}.

(** ** Vocabulary of the properties *)

(** The User-Agent that [random.choice] picks in state [w]. *)
Definition chosen_user_agent (env : environment) (w : world) : string :=
  default "" (USER_AGENTS !! (random_index env (clock w) mod length USER_AGENTS)).

(** What the remote service answers to the probe of [username] started in
    state [w]. *)
Definition probe_answer (env : environment) (w : world) (username : string)
    : http_result :=
  http_get env (clock w) (profile_url username) (chosen_user_agent env w).

(** The outcome table of the specification: not found is available, found
    is taken, forbidden or rate-limited is blocked, any other status is
    unknown, a transport failure is an error. *)
Definition expected_outcome (r : http_result) : outcome string :=
  match r with
  | Response 404 => Returned "available"
  | Response 200 => Returned "taken"
  | Response 403 => Returned "blocked"
  | Response 429 => Returned "blocked"
  | Response _ => Returned "unknown"
  | RequestFailed => Returned "error"
  | NoAnswer => Diverged
  end.

(** The five outcomes. *)
Definition OUTCOMES : list string :=
  ["available"; "taken"; "blocked"; "unknown"; "error"].

Definition add_events (evs : list event) (w : world) : world :=
  set_trace (trace w ++ evs) w.

(** The state in which a probe of [username] leaves a worker that pulled
    it in state [w]. *)
Definition after_probe (env : environment) (username : string) (w : world)
    : world :=
  set_clock (S (clock w))
    (add_events [EvRequest (profile_url username) (chosen_user_agent env w)]
       (add_events [EvAssignLastChecked username]
          (set_last_checked (Some username) w))).

(** [preceded_by_assignment prev url]: the action [prev] just before a
    request for [url] is the assignment of that candidate to
    [last_checked]. *)
Definition preceded_by_assignment (prev : option event) (url : string) : bool :=
  match prev with
  | Some (EvAssignLastChecked u) => String.eqb url (profile_url u)
  | _ => false
  end.

(** Every request of the log [evs] comes right after the assignment of its
    candidate; [prev] is the action before [evs]. *)
Fixpoint checkpoint_before_probe (prev : option event) (evs : list event)
    : bool :=
  match evs with
  | [] => true
  | EvRequest url ua :: evs' =>
      preceded_by_assignment prev url
      && checkpoint_before_probe (Some (EvRequest url ua)) evs'
  | e :: evs' => checkpoint_before_probe (Some e) evs'
  end.

Definition is_request (e : event) : bool :=
  match e with
  | EvRequest _ _ => true
  | _ => false
  end.

Definition is_save (e : event) : bool :=
  match e with
  | EvSaveCheckpoint _ => true
  | _ => false
  end.

(** Number of calls of [save_checkpoint] in a log. *)
Definition count_saves (evs : list event) : nat :=
  length (List.filter is_save evs).

(** The law of the [json] library that the checkpoint store relies on:
    loading what was dumped for a checkpoint gives the checkpoint back. *)
Definition json_roundtrips (env : environment) : Prop :=
  forall v : option string,
    json_loads env (json_dumps env (PyDict {[ "last" := py_of_option v ]}))
    = Some (PyDict {[ "last" := py_of_option v ]}).

(** *** A concrete environment for runs *)

(** A stand-in for [json]: it writes a checkpoint as a tag and the string,
    and reads that form back. *)
Definition sample_dumps (v : pyvalue) : string :=
  match v with
  | PyDict d =>
      match d !! "last" with
      | Some (PyStr s) => "s" +:+ s
      | _ => "n"
      end
  | _ => "n"
  end.

Definition sample_loads (text : string) : option pyvalue :=
  match text with
  | String "s" s => Some (PyDict {[ "last" := PyStr s ]})
  | String "n" EmptyString => Some (PyDict {[ "last" := PyNone ]})
  | _ => None
  end.

(** [checkpoint_before_probe] spelled out: right before each request of
    the log comes the assignment of the requested candidate. *)
Definition ProbesFollowAssignment (evs : list event) : Prop :=
  forall pre url ua post,
    evs = pre ++ EvRequest url ua :: post ->
    exists pre' u,
      pre = pre' ++ [EvAssignLastChecked u] /\ url = profile_url u.

(** *** The assignments and the requests of a log *)

(** The two actions of a worker that the checkpoint is about: the
    assignment [last_checked = username] and the request for a URL. *)
Inductive probe_step :=
| Assigned (username : string)
| Requested (url : string).

Definition probe_step_of (e : event) : option probe_step :=
  match e with
  | EvAssignLastChecked username => Some (Assigned username)
  | EvRequest url _ => Some (Requested url)
  | _ => None
  end.

(** The assignments and requests of a log, in the order they happened. *)
Definition probe_steps (evs : list event) : list probe_step :=
  omap probe_step_of evs.

(** For each candidate of [pulled], in order: its assignment, then the
    request for its profile. *)
Definition expected_probe_steps (pulled : list string) : list probe_step :=
  pulled ≫= (fun username =>
              [Assigned username; Requested (profile_url username)]).

(** The [try] block of [main] in a run that no signal interrupts: the
    output file is opened, the executor is made, and the pool runs until
    the [with] statement lets go. *)
Definition undisturbed_try_block (cfg : config) (env : environment)
    (pool : nat -> list string -> py unit) (threads : Z)
    (start_after : pyvalue) : py unit :=
  open_output env;;
  thread_pool_executor threads;;
  pool (Z.to_nat threads) (generate_usernames cfg start_after).

(** Five threads, every name taken, no failure, no signal. *)
Definition calm_env : environment :=
  {| argv_threads := Some 5%Z;
     http_get := fun _ _ _ => Response 200;
     random_index := fun _ => 0;
     io_fails := fun _ => false;
     short_write := fun _ => 0;
     sigterms := 0;
     json_dumps := sample_dumps;
     json_loads := sample_loads |}.

(** As [calm_env], but the service answers 429 to the probe of "a", finds
    "bb" free, and one SIGTERM arrives. *)
Definition busy_env : environment :=
  {| argv_threads := Some 2%Z;
     http_get := fun _ url _ =>
       if String.eqb url (profile_url "a") then Response 429
       else if String.eqb url (profile_url "bb") then Response 404
       else Response 200;
     random_index := fun t => t;
     io_fails := fun _ => false;
     short_write := fun _ => 0;
     sigterms := 1;
     json_dumps := sample_dumps;
     json_loads := sample_loads |}.

(** The end-to-end scenario of the specification: "a" and "bb" are free,
    every other name is taken. *)
Definition scenario_env : environment :=
  {| argv_threads := Some 3%Z;
     http_get := fun _ url _ =>
       if String.eqb url (profile_url "a") then Response 404
       else if String.eqb url (profile_url "bb") then Response 404
       else Response 200;
     random_index := fun t => t;
     io_fails := fun _ => false;
     short_write := fun _ => 0;
     sigterms := 0;
     json_dumps := sample_dumps;
     json_loads := sample_loads |}.

(** As [calm_env], but no request ever comes back. *)
Definition silent_env : environment :=
  {| argv_threads := Some 5%Z;
     http_get := fun _ _ _ => NoAnswer;
     random_index := fun _ => 0;
     io_fails := fun _ => false;
     short_write := fun _ => 0;
     sigterms := 0;
     json_dumps := sample_dumps;
     json_loads := sample_loads |}.

(** As [calm_env], with [--threads 0] on the command line. *)
Definition zero_threads_env : environment :=
  {| argv_threads := Some 0%Z;
     http_get := http_get calm_env;
     random_index := random_index calm_env;
     io_fails := io_fails calm_env;
     short_write := short_write calm_env;
     sigterms := 0;
     json_dumps := sample_dumps;
     json_loads := sample_loads |}.

(** A process that has just started. *)
Definition fresh_world : world :=
  {| clock := 0; last_checked := None; saver_alive := false;
     saver_stop := false; fs := ∅; output_file := []; trace := [] |}.

(** A worker has pulled "ab". *)
Definition world_at_ab : world := set_last_checked (Some "ab") fresh_world.

(** ** The background saver thread *)

(** [_saver_thread_func()]: [while not _saver_stop.wait(_SAVER_INTERVAL):
    save_checkpoint()].  The wait returns at once when the stop flag is
    already set; otherwise [wakeups] lists, wait after wait, whether another
    thread set the flag before the interval ran out.  When the list ends
    the thread is still waiting. *)
Fixpoint _saver_thread_func (env : environment) (wakeups : list bool)
    : py unit :=
  fun w =>
    if saver_stop w then (w, Returned tt)
    else
      match wakeups with
      | [] => (w, Diverged)
      | true :: _ => (set_saver (saver_alive w) true w, Returned tt)
      | false :: rest =>
          (save_checkpoint env;; _saver_thread_func env rest) w
      end.

(** Number of requests in a log. *)
Definition count_requests (evs : list event) : nat :=
  length (List.filter is_request evs).

(** A configuration whose bounds leave no length. *)
Definition empty_range_config : config :=
  {| ALLOWED := "ab"; MIN_LEN := 3; MAX_LEN := 2 |}.

(** A worker has pulled "b" in a process that has just started. *)
Definition world_at_b : world := set_last_checked (Some "b") fresh_world.


(** As [calm_env], but the command line does not parse. *)
Definition usage_error_env : environment :=
  {| argv_threads := None;
     http_get := http_get calm_env;
     random_index := random_index calm_env;
     io_fails := io_fails calm_env;
     short_write := short_write calm_env;
     sigterms := 0;
     json_dumps := sample_dumps;
     json_loads := sample_loads |}.

(** A process that has just started and finds the checkpoint "bb" that an
    earlier run left on disk. *)
Definition world_with_checkpoint : world :=
  set_fs {[ CHECKPOINT_FILE := File (sample_dumps
                                       (PyDict {[ "last" := PyStr "bb" ]})) ]}
    fresh_world.

(** A checkpoint "bb" is on disk and "ab" is about to be saved. *)
Definition world_resaving : world :=
  set_last_checked (Some "ab") world_with_checkpoint.

(** * Part II: properties *)

(** ** Concrete runs *)

Example generate_ab :
  generate_usernames ab_config PyNone = ["a"; "b"; "aa"; "ab"; "ba"; "bb"].
Proof. reflexivity. Qed.

Example generate_ab_resume :
  generate_usernames ab_config (PyStr "aa") = ["ab"; "ba"; "bb"].
Proof. reflexivity. Qed.

Example validity_examples :
  map (is_valid_instagram_username default_config)
      ["a."; "..ab"; ".ab"; "ab."; "a_1"; "0.a"]
  = [false; false; false; false; true; true].
Proof. reflexivity. Qed.

(** ** The candidate sequence *)

Section StringFacts.

Lemma length_chars (u : string) : length (chars u) = String.length u.
Proof. induction u as [|c u IH]; simpl; congruence. Qed.

Lemma length_join (l : list ascii) : String.length (join l) = length l.
Proof. induction l as [|c l IH]; simpl; congruence. Qed.

Lemma is_prefix_spec (p s : list ascii) :
  is_prefix p s = true <-> exists t, s = p ++ t.
Proof.
  revert s; induction p as [|a p IH]; intros s; simpl.
  - split; eauto.
  - destruct s as [|b s].
    + split; [discriminate | intros [t Ht]; discriminate].
    + rewrite andb_true_iff, Ascii.eqb_eq, IH. split.
      * intros [-> [t ->]]. eauto.
      * intros [t Ht]. injection Ht as -> ->. eauto.
Qed.

Lemma has_infix_spec (p s : list ascii) :
  has_infix p s = true <-> exists a b, s = a ++ p ++ b.
Proof.
  induction s as [|c s IH]; simpl; rewrite orb_true_iff, is_prefix_spec.
  - split.
    + intros [[t Ht] | ?]; [|discriminate]. exists [], t. exact Ht.
    + intros (a & b & Hab). left.
      destruct a; [|discriminate]. exists b. exact Hab.
  - rewrite IH. split.
    + intros [[t Ht] | (a & b & ->)].
      * exists [], t. exact Ht.
      * exists (c :: a), b. reflexivity.
    + intros (a & b & Hab). destruct a as [|c' a]; simpl in Hab.
      * left. eauto.
      * right. injection Hab as -> ->. eauto.
Qed.

Lemma startswith_dot (u : string) :
  startswith u "." = true <-> exists t, chars u = "."%char :: t.
Proof. unfold startswith. rewrite is_prefix_spec. reflexivity. Qed.

Lemma endswith_dot (u : string) :
  endswith u "." = true <-> exists t, chars u = t ++ ["."%char].
Proof.
  unfold endswith. rewrite is_prefix_spec. simpl. split.
  - intros [t Ht]. exists (reverse t).
    rewrite <- (reverse_involutive (chars u)), Ht.
    rewrite reverse_cons. reflexivity.
  - intros [t ->]. exists (reverse t). rewrite reverse_app. reflexivity.
Qed.

Lemma contains_dotdot (u : string) :
  contains ".." u = true
  <-> exists p q, chars u = p ++ "."%char :: "."%char :: q.
Proof. unfold contains. rewrite has_infix_spec. reflexivity. Qed.

Lemma forallb_char_in (pool : string) (l : list ascii) :
  forallb (fun c => char_in c pool) l = true
  <-> forall c, c ∈ l -> c ∈ chars pool.
Proof.
  induction l as [|a l IH]; simpl.
  - split; [intros _ c Hc; inversion Hc | reflexivity].
  - rewrite andb_true_iff, IH. unfold char_in.
    rewrite bool_decide_eq_true. split.
    + intros [Ha Hl] c Hc. apply elem_of_cons in Hc as [-> | Hc]; auto.
    + intros H. split; [apply H; left | intros c Hc; apply H; right; exact Hc].
Qed.

End StringFacts.

(** The validity test of the source decides the validity rules. *)
Lemma is_valid_spec (cfg : config) (u : string) :
  is_valid_instagram_username cfg u = true <-> ValidCandidate cfg u.
Proof.
  unfold is_valid_instagram_username, ValidCandidate.
  rewrite <- startswith_dot, <- endswith_dot, <- contains_dotdot.
  rewrite <- forallb_char_in.
  destruct (MIN_LEN cfg <=? String.length u) eqn:Hmin;
    [apply Nat.leb_le in Hmin | apply Nat.leb_gt in Hmin];
  (destruct (String.length u <=? MAX_LEN cfg) eqn:Hmax;
    [apply Nat.leb_le in Hmax | apply Nat.leb_gt in Hmax]); simpl;
  try (split; [discriminate | intros (_ & ? & _); lia]).
  destruct (startswith u ".") eqn:Hs; simpl.
  { split; [discriminate | intros (_ & _ & H & _); congruence]. }
  destruct (endswith u ".") eqn:He; simpl.
  { split; [discriminate | intros (_ & _ & _ & H & _); congruence]. }
  destruct (contains ".." u) eqn:Hc; simpl.
  { split; [discriminate | intros (_ & _ & _ & _ & H); congruence]. }
  split.
  - intros H. repeat split; auto; congruence.
  - intros (H & _). exact H.
Qed.

Section Enumeration.

Variable cfg : config.

Local Abbreviation pool := (chars (ALLOWED cfg)).
Local Abbreviation V := (fun u => is_valid_instagram_username cfg u = true).
Local Abbreviation block := (fun n => join <$> product pool n).

Lemma elem_of_product (A : list ascii) (n : nat) (l : list ascii) :
  l ∈ product A n <-> length l = n /\ forall c, c ∈ l -> c ∈ A.
Proof.
  revert l; induction n as [|n IH]; intros l; simpl.
  - rewrite list_elem_of_singleton. split.
    + intros ->. split; [reflexivity | intros c Hc; inversion Hc].
    + intros [Hl _]. destruct l; [reflexivity | discriminate].
  - rewrite list_elem_of_bind. split.
    + intros (c & Hl & Hc). apply list_elem_of_fmap in Hl as (l' & -> & Hl').
      apply IH in Hl' as [Hlen Hin]. split; [simpl; congruence|].
      intros d Hd. apply elem_of_cons in Hd as [-> | Hd]; auto.
    + intros [Hlen Hin]. destruct l as [|c l]; [discriminate|].
      exists c. split.
      * apply list_elem_of_fmap. exists l. split; [reflexivity|].
        apply IH. split; [simpl in Hlen; lia|].
        intros d Hd. apply Hin. right. exact Hd.
      * apply Hin. left.
Qed.

Lemma elem_of_all_usernames (u : string) :
  u ∈ all_usernames cfg
  <-> MIN_LEN cfg <= String.length u <= MAX_LEN cfg
      /\ forall c, c ∈ chars u -> c ∈ pool.
Proof.
  unfold all_usernames, range. rewrite list_elem_of_bind. split.
  - intros (n & Hu & Hn). apply elem_of_seq in Hn.
    apply list_elem_of_fmap in Hu as (l & -> & Hl).
    apply elem_of_product in Hl as [Hlen Hin].
    rewrite length_join, list_ascii_of_string_of_list_ascii.
    split; [lia | exact Hin].
  - intros [Hlen Hin]. exists (String.length u). split.
    + apply list_elem_of_fmap. exists (chars u). split.
      * symmetry. apply string_of_list_ascii_of_string.
      * apply elem_of_product. split; [apply length_chars | exact Hin].
    + apply elem_of_seq. lia.
Qed.

Lemma elem_of_valid_usernames (u : string) :
  u ∈ valid_usernames cfg <-> ValidCandidate cfg u.
Proof.
  unfold valid_usernames. rewrite list_elem_of_filter, is_valid_spec.
  rewrite elem_of_all_usernames. unfold ValidCandidate. tauto.
Qed.

(** *** The loops compute a filter, and a resumed run a skip *)

Lemma skip_through_absent (x : string) (l : list string) :
  x ∉ l -> skip_through x l = [].
Proof.
  induction l as [|y l IH]; simpl; [reflexivity|].
  intros H. apply not_elem_of_cons in H as [Hne Hl].
  rewrite bool_decide_eq_false_2 by congruence. auto.
Qed.

Lemma skip_through_app (x : string) (l1 l2 : list string) :
  skip_through x (l1 ++ l2)
  = if bool_decide (x ∈ l1) then skip_through x l1 ++ l2
    else skip_through x l2.
Proof.
  induction l1 as [|y l1 IH]; simpl.
  - reflexivity.
  - destruct (bool_decide (y = x)) eqn:Hy.
    + apply bool_decide_eq_true in Hy as ->.
      rewrite bool_decide_eq_true_2 by left. reflexivity.
    + apply bool_decide_eq_false in Hy. rewrite IH.
      destruct (bool_decide (x ∈ l1)) eqn:Hx.
      * apply bool_decide_eq_true in Hx.
        rewrite bool_decide_eq_true_2 by (right; exact Hx). reflexivity.
      * apply bool_decide_eq_false in Hx.
        rewrite bool_decide_eq_false_2; [reflexivity|].
        intros H. apply elem_of_cons in H as [-> | H]; tauto.
Qed.

Lemma inner_loop_started (sa : pyvalue) (cs : list (list ascii)) :
  inner_loop cfg sa true cs = (filter V (join <$> cs), true).
Proof.
  induction cs as [|c cs IH]; simpl; [reflexivity|].
  destruct (is_valid_instagram_username cfg (join c)) eqn:Hv; simpl.
  - rewrite IH, filter_cons_True by exact Hv. reflexivity.
  - rewrite IH, filter_cons_False by congruence. reflexivity.
Qed.

Lemma inner_loop_skipping (x : string) (cs : list (list ascii)) :
  inner_loop cfg (PyStr x) false cs
  = (skip_through x (filter V (join <$> cs)),
     bool_decide (x ∈ filter V (join <$> cs))).
Proof.
  induction cs as [|c cs IH]; simpl; [reflexivity|].
  destruct (is_valid_instagram_username cfg (join c)) eqn:Hv; simpl.
  - rewrite filter_cons_True by exact Hv. simpl.
    destruct (decide (join c = x)) as [Heq|Hne].
    + rewrite !bool_decide_eq_true_2; [|rewrite Heq; left|exact Heq].
      apply inner_loop_started.
    + rewrite !(bool_decide_eq_false_2 (join c = x)) by exact Hne.
      rewrite IH. f_equal. apply bool_decide_ext.
      rewrite elem_of_cons. split; [tauto | intros [-> | ?]; tauto].
  - rewrite filter_cons_False by congruence. exact IH.
Qed.

Lemma outer_loop_started (sa : pyvalue) (ls : list nat) :
  outer_loop cfg sa true ls = filter V (ls ≫= block).
Proof.
  induction ls as [|n ls IH]; [reflexivity|]. cbn [outer_loop].
  rewrite inner_loop_started, IH, bind_cons, filter_app. reflexivity.
Qed.

Lemma outer_loop_skipping (x : string) (ls : list nat) :
  outer_loop cfg (PyStr x) false ls = skip_through x (filter V (ls ≫= block)).
Proof.
  induction ls as [|n ls IH]; [reflexivity|]. cbn [outer_loop].
  rewrite inner_loop_skipping, bind_cons, filter_app, skip_through_app.
  destruct (bool_decide (x ∈ _)) eqn:Hx.
  - rewrite outer_loop_started. reflexivity.
  - apply bool_decide_eq_false in Hx.
    rewrite IH, skip_through_absent by exact Hx. reflexivity.
Qed.

Lemma inner_loop_never (v : pyvalue) (cs : list (list ascii)) :
  (forall u, str_eq u v = false) -> inner_loop cfg v false cs = ([], false).
Proof.
  intros Hv. induction cs as [|c cs IH]; simpl; [reflexivity|].
  rewrite Hv. destruct (is_valid_instagram_username cfg (join c)); exact IH.
Qed.

Lemma outer_loop_never (v : pyvalue) (ls : list nat) :
  (forall u, str_eq u v = false) -> outer_loop cfg v false ls = [].
Proof.
  intros Hv. induction ls as [|n ls IH]; [reflexivity|]. cbn [outer_loop].
  rewrite inner_loop_never by exact Hv. exact IH.
Qed.

Lemma skip_through_suffix (x : string) (l : list string) :
  exists skipped, l = skipped ++ skip_through x l.
Proof.
  induction l as [|y l [pre IH]]; simpl.
  - exists []. reflexivity.
  - destruct (bool_decide (y = x)).
    + exists [y]. reflexivity.
    + exists (y :: pre). simpl. congruence.
Qed.

Lemma generate_usernames_fresh :
  generate_usernames cfg PyNone = valid_usernames cfg.
Proof. apply outer_loop_started. Qed.

Lemma generate_usernames_resumed (x : string) :
  generate_usernames cfg (PyStr x) = skip_through x (valid_usernames cfg).
Proof. apply outer_loop_skipping. Qed.

(** A resume value that is neither [None] nor a string equals no
    candidate: nothing is yielded. *)
Lemma generate_usernames_other (v : pyvalue) :
  is_None v = false -> (forall u, str_eq u v = false) ->
  generate_usernames cfg v = [].
Proof.
  intros Hn Hv. unfold generate_usernames. rewrite Hn.
  apply outer_loop_never, Hv.
Qed.

(** Whatever the resume value, the generator walks the same sequence and
    yields a final part of it. *)
Lemma generate_usernames_suffix (v : pyvalue) :
  exists skipped,
    generate_usernames cfg PyNone = skipped ++ generate_usernames cfg v.
Proof.
  destruct v as [|b|z|f|x|l|d];
    try (exists (generate_usernames cfg PyNone);
         match goal with
         | |- _ = _ ++ generate_usernames cfg ?v =>
             rewrite (generate_usernames_other v) by reflexivity
         end;
         symmetry; apply app_nil_r).
  - exists []. reflexivity.
  - destruct (skip_through_suffix x (valid_usernames cfg)) as [skipped H].
    exists skipped.
    rewrite generate_usernames_resumed, generate_usernames_fresh. exact H.
Qed.

End Enumeration.

(** *** Strongly sorted lists: helpers *)

Section SortedFacts.

Context {X Y : Type}.

Lemma StronglySorted_fmap_elem (f : X -> Y) (R : relation X)
    (Q : relation Y) (l : list X) :
  (forall a b, a ∈ l -> b ∈ l -> R a b -> Q (f a) (f b)) ->
  StronglySorted R l -> StronglySorted Q (f <$> l).
Proof.
  intros Hmono Hs. induction Hs as [|a l Hs IH Ha]; simpl; constructor.
  - apply IH. intros x y Hx Hy. apply Hmono; right; assumption.
  - apply Forall_fmap, Forall_forall. intros b Hb. simpl.
    apply Hmono; [left | right; exact Hb |].
    rewrite Forall_forall in Ha. auto.
Qed.

Lemma StronglySorted_impl_elem (R R' : relation X) (l : list X) :
  (forall a b, a ∈ l -> b ∈ l -> R a b -> R' a b) ->
  StronglySorted R l -> StronglySorted R' l.
Proof.
  intros Himp Hs. induction Hs as [|a l Hs IH Ha]; constructor.
  - apply IH. intros x y Hx Hy. apply Himp; right; assumption.
  - apply Forall_forall. intros b Hb.
    apply Himp; [left | right; exact Hb |].
    rewrite Forall_forall in Ha. auto.
Qed.

Lemma StronglySorted_bind (f : X -> list Y) (R : relation X)
    (Q : relation Y) (l : list X) :
  (forall a, a ∈ l -> StronglySorted Q (f a)) ->
  (forall a b u v, a ∈ l -> b ∈ l -> R a b -> u ∈ f a -> v ∈ f b -> Q u v) ->
  StronglySorted R l -> StronglySorted Q (l ≫= f).
Proof.
  intros Hin Hcross Hs. induction Hs as [|a l Hs IH Ha].
  - constructor.
  - rewrite bind_cons. apply StronglySorted_app_2.
    + intros u v Hu Hv. apply list_elem_of_bind in Hv as (b & Hv & Hb).
      apply (Hcross a b); [left | right; exact Hb | | exact Hu | exact Hv].
      rewrite Forall_forall in Ha. auto.
    + apply Hin. left.
    + apply IH.
      * intros b Hb. apply Hin. right. exact Hb.
      * intros b c u v Hb Hc. apply Hcross; right; assumption.
Qed.

Lemma StronglySorted_filter (R : relation X) (P : X -> Prop)
    `{forall x, Decision (P x)} (l : list X) :
  StronglySorted R l -> StronglySorted R (filter P l).
Proof.
  intros Hs. induction Hs as [|a l Hs IH Ha]; [constructor|].
  rewrite filter_cons. destruct (decide (P a)); [|exact IH].
  constructor; [exact IH|].
  apply Forall_forall. intros b Hb. apply list_elem_of_filter in Hb as [_ Hb].
  rewrite Forall_forall in Ha. auto.
Qed.

Lemma StronglySorted_NoDup (R : relation X) (l : list X) :
  (forall a, ~ R a a) -> StronglySorted R l -> NoDup l.
Proof.
  intros Hirr Hs. induction Hs as [|a l Hs IH Ha]; constructor; [|exact IH].
  intros Hin. rewrite Forall_forall in Ha. exact (Hirr a (Ha a Hin)).
Qed.

End SortedFacts.

Lemma StronglySorted_seq (j n : nat) : StronglySorted lt (seq j n).
Proof.
  revert j; induction n as [|n IH]; intros j; simpl; constructor.
  - apply IH.
  - apply Forall_forall. intros k Hk. apply elem_of_seq in Hk. lia.
Qed.

(** *** The enumeration is strictly increasing *)

Section Order.

Variable cfg : config.
Hypothesis alphabet_distinct : NoDup (chars (ALLOWED cfg)).

Local Abbreviation pool := (chars (ALLOWED cfg)).
Local Abbreviation idx := (alphabet_index cfg).

Lemma lex_ltb_irrefl (f : ascii -> nat) (u : list ascii) :
  lex_ltb f u u = false.
Proof.
  induction u as [|a u IH]; simpl; [reflexivity|].
  rewrite Nat.ltb_irrefl, Nat.eqb_refl, IH. reflexivity.
Qed.

Lemma candidate_lt_irrefl (u : string) : ~ candidate_lt cfg u u.
Proof.
  unfold candidate_lt, candidate_ltb.
  rewrite Nat.ltb_irrefl, Nat.eqb_refl, lex_ltb_irrefl. discriminate.
Qed.

Lemma index_in_head (a : ascii) (A : list ascii) : index_in (a :: A) a = 0.
Proof. simpl. rewrite Ascii.eqb_refl. reflexivity. Qed.

Lemma index_in_tail (a b : ascii) (A : list ascii) :
  a <> b -> index_in (a :: A) b = S (index_in A b).
Proof.
  intros Hne. simpl. destruct (Ascii.eqb a b) eqn:E; [|reflexivity].
  apply Ascii.eqb_eq in E. contradiction.
Qed.

Lemma index_in_sorted (A : list ascii) :
  NoDup A -> StronglySorted (fun a b => index_in A a < index_in A b) A.
Proof.
  induction 1 as [|a A Ha Hnd IH]; constructor.
  - eapply StronglySorted_impl_elem; [|exact IH].
    intros b c Hb Hc Hlt. cbv beta in *.
    rewrite !index_in_tail by (intros ->; contradiction). lia.
  - apply Forall_forall. intros b Hb.
    rewrite index_in_head, index_in_tail by (intros ->; contradiction). lia.
Qed.

Lemma product_sorted (n : nat) :
  StronglySorted (fun u v => lex_ltb idx u v = true) (product pool n).
Proof.
  induction n as [|n IH]; simpl.
  - repeat constructor.
  - eapply StronglySorted_bind; [| |exact (index_in_sorted _ alphabet_distinct)].
    + intros a _. eapply StronglySorted_fmap; [|exact IH].
      intros u v Huv. simpl.
      rewrite Nat.ltb_irrefl, Nat.eqb_refl. exact Huv.
    + intros a b u v _ _ Hab Hu Hv.
      apply list_elem_of_fmap in Hu as (u' & -> & _).
      apply list_elem_of_fmap in Hv as (v' & -> & _). simpl.
      apply Nat.ltb_lt in Hab. unfold alphabet_index. rewrite Hab. reflexivity.
Qed.

Lemma all_usernames_sorted :
  StronglySorted (candidate_lt cfg) (all_usernames cfg).
Proof.
  unfold all_usernames, range.
  eapply StronglySorted_bind; [| |apply StronglySorted_seq].
  - intros n _.
    eapply StronglySorted_fmap_elem; [|apply product_sorted].
    intros u v Hu Hv Huv. apply elem_of_product in Hu as [Hu _].
    apply elem_of_product in Hv as [Hv _].
    unfold candidate_lt, candidate_ltb.
    rewrite !length_join, !list_ascii_of_string_of_list_ascii, Hu, Hv.
    rewrite Nat.eqb_refl, Huv. apply orb_true_r.
  - intros n m u v _ _ Hnm Hu Hv.
    apply list_elem_of_fmap in Hu as (u' & -> & Hu).
    apply list_elem_of_fmap in Hv as (v' & -> & Hv).
    apply elem_of_product in Hu as [Hu _]. apply elem_of_product in Hv as [Hv _].
    unfold candidate_lt, candidate_ltb. rewrite !length_join, Hu, Hv.
    apply Nat.ltb_lt in Hnm. rewrite Hnm. reflexivity.
Qed.

Lemma valid_usernames_sorted :
  StronglySorted (candidate_lt cfg) (valid_usernames cfg).
Proof. apply StronglySorted_filter, all_usernames_sorted. Qed.

Lemma valid_usernames_NoDup : NoDup (valid_usernames cfg).
Proof.
  eapply StronglySorted_NoDup; [apply candidate_lt_irrefl|].
  apply valid_usernames_sorted.
Qed.

End Order.

(** *** Resuming from a position *)

Lemma skip_through_lookup (l : list string) (k : nat) (x : string) :
  NoDup l -> l !! k = Some x -> skip_through x l = drop (S k) l.
Proof.
  intros Hnd. revert k. induction Hnd as [|y l Hy Hnd IH]; intros k Hk.
  - discriminate.
  - destruct k as [|k]; simpl in *.
    + injection Hk as ->. rewrite bool_decide_eq_true_2 by reflexivity.
      rewrite drop_0. reflexivity.
    + rewrite bool_decide_eq_false_2.
      * apply IH. exact Hk.
      * intros ->. apply Hy. eapply list_elem_of_lookup_2. exact Hk.
Qed.

(** The alphabet of a valid configuration has no repeated character:
    when it has one, [itertools.product] repeats tuples and the generator
    yields a valid candidate more than once. *)
Lemma repeated_character_yields_candidate_twice :
  ValidCandidate aa_config "a"
  /\ generate_usernames aa_config PyNone = ["a"; "a"]
  /\ ~ NoDup (generate_usernames aa_config PyNone).
Proof.
  split; [apply is_valid_spec; reflexivity|]. split; [reflexivity|].
  change (generate_usernames aa_config PyNone) with ["a"; "a"].
  intros H. apply NoDup_cons_1_1 in H. apply H. left.
Qed.

(** *** Integer bounds *)

Section IntegerBounds.

Variable cfg : IntBounds.config.

Local Abbreviation lcfg := (natural_config cfg).

Hypothesis min_len_natural : (0 <= IntBounds.MIN_LEN cfg)%Z.
Hypothesis max_len_natural : (0 <= IntBounds.MAX_LEN cfg)%Z.

Lemma int_is_valid (u : string) :
  IntBounds.is_valid_instagram_username cfg u
  = is_valid_instagram_username lcfg u.
Proof using All.
  unfold IntBounds.is_valid_instagram_username, is_valid_instagram_username.
  cbn [natural_config MIN_LEN MAX_LEN ALLOWED].
  replace (IntBounds.MIN_LEN cfg <=? Z.of_nat (String.length u))%Z
    with (Z.to_nat (IntBounds.MIN_LEN cfg) <=? String.length u).
  2:{ destruct (Nat.leb_spec (Z.to_nat (IntBounds.MIN_LEN cfg))
                  (String.length u));
      destruct (Z.leb_spec (IntBounds.MIN_LEN cfg)
                  (Z.of_nat (String.length u))); try reflexivity; lia. }
  replace (Z.of_nat (String.length u) <=? IntBounds.MAX_LEN cfg)%Z
    with (String.length u <=? Z.to_nat (IntBounds.MAX_LEN cfg)).
  2:{ destruct (Nat.leb_spec (String.length u)
                  (Z.to_nat (IntBounds.MAX_LEN cfg)));
      destruct (Z.leb_spec (Z.of_nat (String.length u))
                  (IntBounds.MAX_LEN cfg)); try reflexivity; lia. }
  reflexivity.
Qed.

Lemma int_inner_loop (v : pyvalue) (st : bool) (cs : list (list ascii)) :
  IntBounds.inner_loop cfg v st cs = inner_loop lcfg v st cs.
Proof using All.
  revert st. induction cs as [|c cs IH]; intros st; [reflexivity|].
  cbn [IntBounds.inner_loop inner_loop]. rewrite int_is_valid, !IH.
  reflexivity.
Qed.

Lemma int_outer_loop (v : pyvalue) (st : bool) (ls : list nat) :
  IntBounds.outer_loop cfg v st (Z.of_nat <$> ls)
  = (outer_loop lcfg v st ls, Returned tt).
Proof using All.
  revert st. induction ls as [|n ls IH]; intros st; [reflexivity|].
  cbn [fmap list_fmap IntBounds.outer_loop outer_loop].
  unfold IntBounds.product.
  destruct (Z.ltb_spec (Z.of_nat n) 0) as [Hneg|_]; [lia|].
  rewrite Nat2Z.id, int_inner_loop.
  cbn [natural_config ALLOWED].
  destruct (inner_loop _ v st _) as [ys st'].
  change (list_fmap nat Z Z.of_nat ls) with (Z.of_nat <$> ls).
  rewrite IH. reflexivity.
Qed.

Lemma int_range :
  IntBounds.range (IntBounds.MIN_LEN cfg) (IntBounds.MAX_LEN cfg + 1)
  = Z.of_nat <$> range (MIN_LEN lcfg) (MAX_LEN lcfg + 1).
Proof using All.
  unfold IntBounds.range, range. cbn [natural_config MIN_LEN MAX_LEN].
  replace (Z.to_nat (IntBounds.MAX_LEN cfg + 1 - IntBounds.MIN_LEN cfg))
    with (Z.to_nat (IntBounds.MAX_LEN cfg) + 1
          - Z.to_nat (IntBounds.MIN_LEN cfg)) by lia.
  generalize (Z.to_nat (IntBounds.MAX_LEN cfg) + 1
              - Z.to_nat (IntBounds.MIN_LEN cfg)) as n.
  intros n.
  rewrite <- (Nat.add_0_r (Z.to_nat (IntBounds.MIN_LEN cfg))) at 1.
  rewrite <- fmap_add_seq, <- list_fmap_compose.
  apply list_fmap_ext. intros _ k _. cbn. lia.
Qed.

(** With natural bounds the generator never raises, and yields what the
    generator over lengths yields. *)
Lemma int_generate_usernames (v : pyvalue) :
  IntBounds.generate_usernames cfg v
  = (generate_usernames lcfg v, Returned tt).
Proof using All.
  unfold IntBounds.generate_usernames, generate_usernames.
  rewrite int_range. apply int_outer_loop.
Qed.

Lemma int_valid_candidate (u : string) :
  IntBounds.ValidCandidate cfg u <-> ValidCandidate lcfg u.
Proof using All.
  unfold IntBounds.ValidCandidate, ValidCandidate.
  cbn [natural_config MIN_LEN MAX_LEN ALLOWED].
  split; intros (Hc & Hl & Hrest); (split; [exact Hc|]);
    (split; [lia | exact Hrest]).
Qed.

End IntegerBounds.

(** An upper bound below the lower bound leaves no length to walk. *)
Lemma int_generate_usernames_empty (cfg : IntBounds.config) (v : pyvalue) :
  (IntBounds.MAX_LEN cfg < IntBounds.MIN_LEN cfg)%Z ->
  IntBounds.generate_usernames cfg v = ([], Returned tt).
Proof.
  intros Hlt. unfold IntBounds.generate_usernames, IntBounds.range.
  replace (Z.to_nat (IntBounds.MAX_LEN cfg + 1 - IntBounds.MIN_LEN cfg))
    with 0 by lia.
  reflexivity.
Qed.

(** A negative MIN_LEN with a length to walk: the first [next] reaches
    [itertools.product] with a negative [repeat], which raises before
    anything is yielded. *)
Lemma int_generate_usernames_negative (cfg : IntBounds.config) (v : pyvalue) :
  (IntBounds.MIN_LEN cfg < 0)%Z ->
  (IntBounds.MIN_LEN cfg <= IntBounds.MAX_LEN cfg)%Z ->
  IntBounds.generate_usernames cfg v = ([], Raised (Exception "ValueError")).
Proof.
  intros Hneg Hle. unfold IntBounds.generate_usernames, IntBounds.range.
  destruct (Z.to_nat (IntBounds.MAX_LEN cfg + 1 - IntBounds.MIN_LEN cfg))
    as [|n] eqn:Hn; [lia|].
  cbn [seq fmap list_fmap IntBounds.outer_loop]. unfold IntBounds.product.
  destruct (Z.ltb_spec (IntBounds.MIN_LEN cfg + Z.of_nat 0) 0) as [_|H];
    [reflexivity | lia].
Qed.

Example negative_min_len_raises :
  IntBounds.ValidCandidate IntBounds.negative_config "a"
  /\ IntBounds.generate_usernames IntBounds.negative_config PyNone
     = ([], Raised (Exception "ValueError")).
Proof.
  split; [|reflexivity].
  split; [intros c Hc; apply list_elem_of_singleton in Hc as ->; left|].
  split; [cbn; lia|].
  split; [intros [t Ht]; discriminate|].
  split; [intros [t Ht]; destruct t as [|? [|]]; discriminate|].
  intros (p & q & Hpq). destruct p as [|? [|]]; discriminate.
Qed.

(** C1.  For every valid configuration - integer bounds with MIN_LEN not
    negative, and an alphabet without repeated characters -
    [generate_usernames] with no resume value runs to exhaustion without
    raising, and the sequence it yields contains exactly the valid
    candidates (every character in the alphabet, length within
    [MIN_LEN, MAX_LEN], no leading or trailing dot, no two dots in a row),
    each of them once, and is strictly increasing: by length first, then
    lexicographically by alphabet index.  The sequence is a function of
    the configuration alone, so enumerating again from scratch gives the
    same sequence; a generator built with any resume value walks that same
    sequence and yields a final part of it.  The two conditions are what
    makes a configuration valid: without them the generator repeats a
    candidate ([repeated_character_yields_candidate_twice]) or raises
    ([negative_min_len_raises]). *)
Theorem generate_usernames_enumerates_valid_in_order
    (cfg : IntBounds.config) :
  (0 <= IntBounds.MIN_LEN cfg)%Z ->
  NoDup (chars (IntBounds.ALLOWED cfg)) ->
  snd (IntBounds.generate_usernames cfg PyNone) = Returned tt
  /\ (forall u, u ∈ fst (IntBounds.generate_usernames cfg PyNone)
                <-> IntBounds.ValidCandidate cfg u)
  /\ NoDup (fst (IntBounds.generate_usernames cfg PyNone))
  /\ StronglySorted (candidate_lt (natural_config cfg))
       (fst (IntBounds.generate_usernames cfg PyNone))
  /\ (forall v, exists skipped,
         fst (IntBounds.generate_usernames cfg PyNone)
         = skipped ++ fst (IntBounds.generate_usernames cfg v)).
Proof.
  intros Hmin Hnd.
  destruct (Z.lt_ge_cases (IntBounds.MAX_LEN cfg) (IntBounds.MIN_LEN cfg))
    as [Hlt | Hle].
  - rewrite (int_generate_usernames_empty cfg PyNone Hlt). cbn [fst snd].
    split; [reflexivity|]. split.
    { intros u. split; [intros Hu; inversion Hu|].
      intros (_ & Hl & _). lia. }
    split; [constructor|]. split; [constructor|].
    intros v. exists []. rewrite (int_generate_usernames_empty cfg v Hlt).
    reflexivity.
  - assert (Hmax : (0 <= IntBounds.MAX_LEN cfg)%Z) by lia.
    rewrite (int_generate_usernames cfg Hmin Hmax PyNone). cbn [fst snd].
    split; [reflexivity|]. split.
    { intros u. rewrite (int_valid_candidate cfg Hmin Hmax).
      rewrite generate_usernames_fresh. apply elem_of_valid_usernames. }
    split; [rewrite generate_usernames_fresh; apply valid_usernames_NoDup, Hnd|].
    split; [rewrite generate_usernames_fresh;
            apply valid_usernames_sorted, Hnd|].
    intros v. rewrite (int_generate_usernames cfg Hmin Hmax v). cbn [fst].
    apply generate_usernames_suffix.
Qed.

Lemma generate_usernames_enumerates_valid_in_order_witness :
  (0 <= IntBounds.MIN_LEN IntBounds.default_config)%Z
  /\ NoDup (chars (IntBounds.ALLOWED IntBounds.default_config))
  /\ snd (IntBounds.generate_usernames IntBounds.default_config PyNone)
     = Returned tt
  /\ (forall u,
        u ∈ fst (IntBounds.generate_usernames IntBounds.default_config PyNone)
        <-> IntBounds.ValidCandidate IntBounds.default_config u)
  /\ NoDup (fst (IntBounds.generate_usernames IntBounds.default_config PyNone))
  /\ StronglySorted (candidate_lt (natural_config IntBounds.default_config))
       (fst (IntBounds.generate_usernames IntBounds.default_config PyNone))
  /\ (forall v, exists skipped,
         fst (IntBounds.generate_usernames IntBounds.default_config PyNone)
         = skipped
           ++ fst (IntBounds.generate_usernames IntBounds.default_config v)).
Proof.
  assert (Hmin : (0 <= IntBounds.MIN_LEN IntBounds.default_config)%Z)
    by (cbn; lia).
  assert (Hnd : NoDup (chars (IntBounds.ALLOWED IntBounds.default_config)))
    by (apply (bool_decide_unpack _); vm_compute; exact I).
  split; [exact Hmin|]. split; [exact Hnd|].
  exact (generate_usernames_enumerates_valid_in_order
           IntBounds.default_config Hmin Hnd).
Defined.

(** Resuming after the candidate at position [k] gives the enumeration
    from position [k+1] on, for any alphabet of distinct characters. *)
Lemma generate_usernames_resume_at (cfg : config) (k : nat) (u : string) :
  NoDup (chars (ALLOWED cfg)) ->
  generate_usernames cfg PyNone !! k = Some u ->
  generate_usernames cfg (PyStr u) = drop (S k) (generate_usernames cfg PyNone).
Proof.
  intros Hnd Hk. rewrite generate_usernames_resumed.
  rewrite generate_usernames_fresh in *.
  apply skip_through_lookup; [apply valid_usernames_NoDup, Hnd | exact Hk].
Qed.

Lemma default_alphabet_distinct : NoDup (chars (ALLOWED default_config)).
Proof. apply (bool_decide_unpack _). vm_compute. exact I. Qed.

(** C2. For every position [k] of the full enumeration of the program
    (ALLOWED, MIN_LEN and MAX_LEN as the source sets them), constructing
    [generate_usernames] with [start_after] equal to the candidate at
    position [k] yields exactly the part of the full enumeration that
    starts at position [k+1]. *)
Theorem generate_usernames_resume_is_suffix (k : nat) (u : string) :
  generate_usernames default_config PyNone !! k = Some u ->
  generate_usernames default_config (PyStr u)
  = drop (S k) (generate_usernames default_config PyNone).
Proof.
  apply generate_usernames_resume_at, default_alphabet_distinct.
Qed.

Lemma generate_usernames_resume_is_suffix_witness :
  generate_usernames default_config PyNone !! 1 = Some "b"
  /\ generate_usernames default_config (PyStr "b")
     = drop 2 (generate_usernames default_config PyNone).
Proof.
  assert (Hk : generate_usernames default_config PyNone !! 1 = Some "b")
    by reflexivity.
  split; [exact Hk|].
  exact (generate_usernames_resume_is_suffix 1 "b" Hk).
Defined.

(** A resume value that the enumeration never reaches leaves [started]
    false to the end: nothing is yielded. *)
Lemma generate_usernames_resume_absent (cfg : config) (s : string) :
  s ∉ generate_usernames cfg PyNone -> generate_usernames cfg (PyStr s) = [].
Proof.
  rewrite generate_usernames_fresh, generate_usernames_resumed.
  apply skip_through_absent.
Qed.

(** C3, as stated, fails: "zzzzz" is not in the enumeration of the default
    configuration (it is too long), and resuming after it does not yield
    the sequence of a fresh run. *)
Lemma resume_after_unknown_differs_from_fresh :
  ("zzzzz" ∉ generate_usernames default_config PyNone)
  /\ generate_usernames default_config (PyStr "zzzzz")
     <> generate_usernames default_config PyNone.
Proof.
  assert (Hz : "zzzzz" ∉ generate_usernames default_config PyNone).
  { rewrite generate_usernames_fresh, elem_of_valid_usernames, <- is_valid_spec.
    vm_compute. discriminate. }
  split; [exact Hz|].
  rewrite (generate_usernames_resume_absent _ _ Hz).
  intros Heq.
  assert (Ha : "a" ∈ generate_usernames default_config PyNone).
  { rewrite generate_usernames_fresh, elem_of_valid_usernames, <- is_valid_spec.
    reflexivity. }
  rewrite <- Heq in Ha. inversion Ha.
Qed.

(** C3, amended.  For every string [s] that does not appear in the
    enumeration, [generate_usernames] with [start_after = s] yields nothing:
    the generator skips until it meets [s], and never does. *)
Theorem generate_usernames_unknown_resume_yields_nothing (cfg : config)
    (s : string) :
  s ∉ generate_usernames cfg PyNone -> generate_usernames cfg (PyStr s) = [].
Proof. apply generate_usernames_resume_absent. Qed.

Lemma generate_usernames_unknown_resume_yields_nothing_witness :
  ("c" ∉ generate_usernames ab_config PyNone)
  /\ generate_usernames ab_config (PyStr "c") = [].
Proof.
  assert (Hc : "c" ∉ generate_usernames ab_config PyNone)
    by (apply (bool_decide_unpack _); vm_compute; exact I).
  split; [exact Hc|].
  exact (generate_usernames_unknown_resume_yields_nothing ab_config "c" Hc).
Defined.

(** ** The probe client *)

Ltac py_unfold :=
  unfold mbind, py_bind, mret, py_ret, try_except, try_finally, raise, emit,
    print, sleep in *.

Section Probe.

Variable env : environment.

Lemma check_username_run (username : string) (w : world) :
  check_username env username w
  = (set_clock (S (clock w))
       (add_events
          [EvRequest (profile_url username) (chosen_user_agent env w)] w),
     expected_outcome (probe_answer env w username)).
Proof.
  unfold check_username, random_choice, requests_get, probe_answer,
    chosen_user_agent, add_events. py_unfold. cbn beta iota.
  destruct (http_get env (clock w) _ _) as [code| |]; try reflexivity.
  cbn [expected_outcome is_Exception].
  destruct (Z.eqb_spec code 404) as [->|H404]; [reflexivity|].
  destruct (Z.eqb_spec code 200) as [->|H200]; [reflexivity|].
  destruct (Z.eqb_spec code 403) as [->|H403]; [reflexivity|].
  destruct (Z.eqb_spec code 429) as [->|H429]; [reflexivity|].
  cbn [orb]. f_equal.
  destruct code as [|p|p]; try reflexivity.
  repeat (destruct p as [p|p|]; try reflexivity; try contradiction).
Qed.

Lemma expected_outcome_cases (r : http_result) (s : string) :
  expected_outcome r = Returned s -> s ∈ OUTCOMES.
Proof.
  unfold OUTCOMES. destruct r as [code| |]; cbn.
  - destruct code as [|p|p]; cbn.
    1,3: intros [= <-]; set_solver.
    repeat (destruct p as [p|p|]; cbn; try (intros [= <-]; set_solver)).
  - intros [= <-]. set_solver.
  - discriminate.
Qed.

Lemma expected_outcome_not_raised (r : http_result) (e : exn) :
  expected_outcome r <> Raised e.
Proof.
  destruct r as [code| |]; cbn; try discriminate.
  destruct code as [|p|p]; cbn; try discriminate.
  repeat (destruct p as [p|p|]; cbn; try discriminate).
Qed.

End Probe.

(** C5. For every candidate and every state, [check_username] makes one
    request and its outcome is fixed by the answer: status 404 gives
    "available", 200 "taken", 403 or 429 "blocked", any other status
    "unknown", and a failed transport "error"; whenever it returns, it
    returns one of these five strings. *)
Theorem check_username_outcome_table (env : environment) (username : string)
    (w : world) :
  snd (check_username env username w)
  = match probe_answer env w username with
    | Response 404 => Returned "available"
    | Response 200 => Returned "taken"
    | Response 403 => Returned "blocked"
    | Response 429 => Returned "blocked"
    | Response _ => Returned "unknown"
    | RequestFailed => Returned "error"
    | NoAnswer => Diverged
    end
  /\ (forall s, snd (check_username env username w) = Returned s
                -> s ∈ OUTCOMES).
Proof.
  rewrite check_username_run. split.
  - reflexivity.
  - apply expected_outcome_cases.
Qed.

(** ** The checkpoint store *)

Section Checkpoint.

Variable env : environment.

(** The value [load_checkpoint] reads off the file system. *)
Lemma load_checkpoint_run (w : world) :
  load_checkpoint env w
  = (w, Returned
          match fs w !! CHECKPOINT_FILE with
          | Some (File text) =>
              match json_loads env text with
              | Some (PyDict d) => default PyNone (d !! "last")
              | _ => PyNone
              end
          | _ => PyNone
          end).
Proof.
  unfold load_checkpoint, os_path_exists, read_text, json_load, py_get.
  py_unfold.
  destruct (fs w !! CHECKPOINT_FILE) as [[|text]|] eqn:Hf; cbn.
  - rewrite Hf. reflexivity.
  - rewrite Hf. destruct (json_loads env text) as [[]|]; reflexivity.
  - reflexivity.
Qed.

(** A completed [save_checkpoint_attempt] leaves the dumped checkpoint in
    the checkpoint file and changes nothing but the files and the clock. *)
Lemma save_checkpoint_attempt_returned (w w' : world) :
  save_checkpoint_attempt env w = (w', Returned tt) ->
  fs w' !! CHECKPOINT_FILE
  = Some (File (json_dumps env
                  (PyDict {[ "last" := py_of_option (last_checked w) ]}))).
Proof.
  unfold save_checkpoint_attempt, open_for_writing, json_dump, os_replace.
  py_unfold. cbn.
  destruct (io_fails env (clock w)); [discriminate|]. cbn.
  destruct (io_fails env (S (clock w))); [discriminate|]. cbn.
  destruct (io_fails env (S (S (clock w)))); [discriminate|].
  rewrite lookup_insert_eq. intros [= <-]. cbn.
  apply lookup_insert_eq.
Qed.

(** [save_checkpoint_attempt] touches the files and the clock only. *)
Lemma save_checkpoint_attempt_frame (w : world) :
  let w' := fst (save_checkpoint_attempt env w) in
  trace w' = trace w /\ last_checked w' = last_checked w
  /\ saver_alive w' = saver_alive w /\ saver_stop w' = saver_stop w
  /\ output_file w' = output_file w
  /\ snd (save_checkpoint_attempt env w) <> Diverged.
Proof.
  unfold save_checkpoint_attempt, open_for_writing, json_dump, os_replace.
  py_unfold. cbn.
  destruct (io_fails env (clock w)); [cbn; repeat split; discriminate|]. cbn.
  destruct (io_fails env (S (clock w))); [cbn; repeat split; discriminate|]. cbn.
  destruct (io_fails env (S (S (clock w)))); [cbn; repeat split; discriminate|].
  rewrite lookup_insert_eq. cbn. repeat split; discriminate.
Qed.

(** [save_checkpoint] never raises: it logs the call and returns. *)
Lemma save_checkpoint_run (w : world) :
  exists w',
    save_checkpoint env w = (w', Returned tt)
    /\ trace w' = trace w ++ [EvSaveCheckpoint (last_checked w)]
    /\ last_checked w' = last_checked w
    /\ saver_alive w' = saver_alive w /\ saver_stop w' = saver_stop w.
Proof.
  unfold save_checkpoint. py_unfold.
  pose proof (save_checkpoint_attempt_frame
                (set_trace (trace w ++ [EvSaveCheckpoint (last_checked w)]) w))
    as (Ht & Hl & Ha & Hp & _ & Hd).
  cbn beta iota zeta in *.
  destruct (save_checkpoint_attempt env _) as [w1 [[]|e|]] eqn:Hs;
    cbn in *.
  - eauto 10.
  - assert (He : is_Exception e = true).
    { revert Hs. unfold save_checkpoint_attempt, open_for_writing, json_dump,
        os_replace. py_unfold. cbn.
      repeat (match goal with
              | |- context [if ?b then _ else _] => destruct b; cbn
              | |- context [match ?o with Some _ => _ | None => _ end] =>
                  destruct o; cbn
              end; try (intros [= <- <-]; reflexivity)); discriminate. }
    rewrite He. eauto 10.
  - contradiction.
Qed.

End Checkpoint.

(** C10. [load_checkpoint] never raises and leaves the state alone.  It
    returns [None] when the checkpoint file is absent, when it cannot be
    opened, when its text is not JSON, and when the JSON has no "last" field
    (it is no object, or an object without that key); it returns a string
    only when the file holds a JSON object that maps "last" to that
    string. *)
Theorem load_checkpoint_total (env : environment) (w : world) :
  exists v,
    load_checkpoint env w = (w, Returned v)
    /\ (fs w !! CHECKPOINT_FILE = None -> v = PyNone)
    /\ (fs w !! CHECKPOINT_FILE = Some Unreadable -> v = PyNone)
    /\ (forall text,
          fs w !! CHECKPOINT_FILE = Some (File text) ->
          json_loads env text = None -> v = PyNone)
    /\ (forall text j,
          fs w !! CHECKPOINT_FILE = Some (File text) ->
          json_loads env text = Some j ->
          (forall d, j = PyDict d -> d !! "last" = None) -> v = PyNone)
    /\ (forall s,
          v = PyStr s ->
          exists text d,
            fs w !! CHECKPOINT_FILE = Some (File text)
            /\ json_loads env text = Some (PyDict d)
            /\ d !! "last" = Some (PyStr s)).
Proof.
  eexists. split; [apply load_checkpoint_run|].
  destruct (fs w !! CHECKPOINT_FILE) as [[|text]|] eqn:Hf.
  - repeat split; try reflexivity; discriminate.
  - repeat split; try discriminate.
    + intros t [= <-] ->. reflexivity.
    + intros t j [= <-] -> Hj. destruct j; try reflexivity.
      rewrite (Hj _ eq_refl). reflexivity.
    + intros s Hs. exists text.
      destruct (json_loads env text) as [[]|]; try discriminate.
      eexists. split; [reflexivity|]. split; [reflexivity|].
      destruct (_ !! "last"); [cbn in Hs; congruence | discriminate].
  - repeat split; try reflexivity; discriminate.
Qed.

(** C6. The checkpoint store gives back what was saved: when
    [save_checkpoint] is called with [last_checked] equal to a candidate
    string or to [None] and its [try] block runs to the end, the call
    returns, and [load_checkpoint] in any process that finds the files as
    the save left them returns that value.  The [json] library is taken to
    load what it dumped. *)
Theorem save_then_load_roundtrip (env : environment) (w w' : world) :
  json_roundtrips env ->
  save_checkpoint_attempt env
    (add_events [EvSaveCheckpoint (last_checked w)] w) = (w', Returned tt) ->
  save_checkpoint env w = (w', Returned tt)
  /\ forall reopened : world,
       fs reopened = fs w' ->
       load_checkpoint env reopened
       = (reopened, Returned (py_of_option (last_checked w))).
Proof.
  intros Hjson Hsave. split.
  - unfold save_checkpoint. py_unfold. unfold add_events in Hsave.
    cbn beta iota zeta. rewrite Hsave. reflexivity.
  - intros reopened Hfs. rewrite load_checkpoint_run, Hfs.
    rewrite (save_checkpoint_attempt_returned env _ w' Hsave), Hjson.
    rewrite lookup_singleton_eq. reflexivity.
Qed.

Lemma sample_json_roundtrips : json_roundtrips calm_env.
Proof.
  intros [s|]; cbn; unfold sample_dumps; rewrite lookup_singleton_eq;
    reflexivity.
Defined.

Lemma save_then_load_roundtrip_witness :
  json_roundtrips calm_env
  /\ save_checkpoint_attempt calm_env
       (add_events [EvSaveCheckpoint (last_checked world_at_ab)] world_at_ab)
     = (fst (save_checkpoint calm_env world_at_ab), Returned tt)
  /\ save_checkpoint calm_env world_at_ab
     = (fst (save_checkpoint calm_env world_at_ab), Returned tt)
  /\ forall reopened : world,
       fs reopened = fs (fst (save_checkpoint calm_env world_at_ab)) ->
       load_checkpoint calm_env reopened = (reopened, Returned (PyStr "ab")).
Proof.
  assert (Hs : save_checkpoint_attempt calm_env
                 (add_events [EvSaveCheckpoint (last_checked world_at_ab)]
                    world_at_ab)
               = (fst (save_checkpoint calm_env world_at_ab), Returned tt))
    by (vm_compute; reflexivity).
  split; [exact sample_json_roundtrips|]. split; [exact Hs|].
  exact (save_then_load_roundtrip calm_env world_at_ab _
           sample_json_roundtrips Hs).
Defined.

(** ** The worker *)

Section Worker.

Variable env : environment.

Lemma preceded_by_own_assignment (u : string) :
  preceded_by_assignment (Some (EvAssignLastChecked u)) (profile_url u) = true.
Proof. apply String.eqb_refl. Qed.

(** A log that passes the check does not begin with a request, so what
    comes before it does not matter; request-free actions can be put in
    front of it. *)
Lemma checkpoint_before_probe_quiet_app (q r : list event)
    (prev : option event) :
  Forall (fun e => is_request e = false) q ->
  checkpoint_before_probe None r = true ->
  checkpoint_before_probe prev (q ++ r) = true.
Proof.
  intros Hq Hr. revert prev. induction Hq as [|e q He Hq IH]; intros prev.
  - destruct r as [|e r]; [reflexivity|].
    destruct e; try exact Hr. discriminate.
  - destruct e; try discriminate; cbn; apply IH.
Qed.

Lemma checkpoint_before_probe_at (evs pre post : list event)
    (prev : option event) (url ua : string) :
  checkpoint_before_probe prev evs = true ->
  evs = pre ++ EvRequest url ua :: post ->
  preceded_by_assignment (from_option Some prev (last pre)) url = true.
Proof.
  revert prev pre. induction evs as [|e evs IH]; intros prev pre Hc Heq.
  - destruct pre; discriminate.
  - destruct pre as [|e' pre]; cbn in Heq; injection Heq as -> ->.
    + cbn in *. apply andb_true_iff in Hc as [Hc _]. exact Hc.
    + assert (Hc' : checkpoint_before_probe (Some e')
                      (pre ++ EvRequest url ua :: post) = true).
      { destruct e'; cbn in Hc; try exact Hc.
        apply andb_true_iff in Hc as [_ Hc]. exact Hc. }
      specialize (IH (Some e') pre Hc' eq_refl).
      rewrite last_cons. destruct (last pre); exact IH.
Qed.

Lemma checkpoint_before_probe_reading (evs : list event) :
  checkpoint_before_probe None evs = true -> ProbesFollowAssignment evs.
Proof.
  intros Hc pre url ua post Heq.
  pose proof (checkpoint_before_probe_at _ _ _ _ _ _ Hc Heq) as H.
  destruct (last pre) as [e|] eqn:Hl; [|discriminate].
  apply last_Some in Hl as [pre' ->].
  destruct e; try discriminate. cbn in H.
  apply String.eqb_eq in H. eauto.
Qed.

(** One turn of the loop: the assignment and the request, then actions
    that are no requests; the worker either stops there because the request
    never came back, or goes on with the rest of the generator. *)
Lemma worker_step (u : string) (rest : list string) (w : world) :
  exists evs w1,
    Forall (fun e => is_request e = false) evs
    /\ trace w1 = trace (after_probe env u w) ++ evs
    /\ (worker env (u :: rest) w = (w1, Diverged)
        \/ worker env (u :: rest) w = worker env rest w1).
Proof.
  cbn [worker]. unfold assign_last_checked, file_write, file_flush.
  py_unfold. cbn beta iota zeta.
  rewrite check_username_run.
  change (set_clock _ (add_events _ _)) with (after_probe env u w).
  replace (probe_answer env _ u) with (probe_answer env w u) by reflexivity.
  set (wp := after_probe env u w).
  destruct (expected_outcome (probe_answer env w u)) as [s|e|] eqn:Hs.
  - destruct (String.eqb s "available");
      [|destruct (String.eqb s "taken");
        [|destruct (String.eqb s "blocked")]]; cbn.
    + match goal with
      | |- context [save_checkpoint env ?W] =>
          destruct (save_checkpoint_run env W) as (w2 & -> & Ht & _)
      end.
      cbn in *.
      exists [EvPrint ("[AVAILABLE] " +:+ u); EvWrite (u +:+ newline); EvFlush;
              EvSaveCheckpoint (last_checked wp); EvSleep (Uniform 8 15)].
      eexists. split; [repeat constructor|]. split; [|right; reflexivity].
      cbn. rewrite Ht, <- !app_assoc. reflexivity.
    + exists [EvPrint ("[TAKEN] " +:+ u); EvSleep (Uniform 8 15)].
      eexists. split; [repeat constructor|]. split; [|right; reflexivity].
      cbn. rewrite <- !app_assoc. reflexivity.
    + exists [EvPrint "[RATE LIMIT] Sleeping 90 seconds...";
              EvSleep (Seconds 90)].
      eexists. split; [repeat constructor|]. split; [|right; reflexivity].
      cbn. rewrite <- !app_assoc. reflexivity.
    + exists [EvSleep (Uniform 8 15)].
      eexists. split; [repeat constructor|]. split; [|right; reflexivity].
      reflexivity.
  - destruct (expected_outcome_not_raised _ _ Hs).
  - exists [], wp. split; [constructor|]. split; [|left; reflexivity].
    rewrite app_nil_r. reflexivity.
Qed.

(** The actions a worker adds to the log pass the check. *)
Lemma worker_log_checked (gen : list string) (w : world) :
  exists evs,
    trace (fst (worker env gen w)) = trace w ++ evs
    /\ checkpoint_before_probe None evs = true.
Proof.
  revert w. induction gen as [|u rest IH]; intros w.
  - exists []. split; [rewrite app_nil_r|]; reflexivity.
  - destruct (worker_step u rest w) as (q & w1 & Hq & Ht & [Hw | Hw]).
    + exists (EvAssignLastChecked u
              :: EvRequest (profile_url u) (chosen_user_agent env w) :: q).
      rewrite Hw. cbn [fst]. rewrite Ht. split.
      * cbn. rewrite <- !app_assoc. reflexivity.
      * cbn [checkpoint_before_probe]. rewrite preceded_by_own_assignment.
        rewrite <- (app_nil_r q).
        apply checkpoint_before_probe_quiet_app; [exact Hq | reflexivity].
    + destruct (IH w1) as (r & Hr & Hc).
      exists (EvAssignLastChecked u
              :: EvRequest (profile_url u) (chosen_user_agent env w) :: q ++ r).
      rewrite Hw, Hr, Ht. split.
      * cbn. rewrite <- !app_assoc. reflexivity.
      * cbn [checkpoint_before_probe]. rewrite preceded_by_own_assignment.
        apply checkpoint_before_probe_quiet_app; assumption.
Qed.

(** After a blocked probe the worker logs, sleeps 90 seconds and goes on
    with the rest of the generator. *)
Lemma worker_blocked (u : string) (rest : list string) (w : world) :
  expected_outcome (probe_answer env w u) = Returned "blocked" ->
  worker env (u :: rest) w
  = worker env rest
      (add_events [EvPrint "[RATE LIMIT] Sleeping 90 seconds...";
                   EvSleep (Seconds 90)]
         (after_probe env u w)).
Proof.
  intros Hb. cbn [worker]. unfold assign_last_checked. py_unfold.
  cbn beta iota zeta. rewrite check_username_run.
  replace (probe_answer env _ u) with (probe_answer env w u) by reflexivity.
  rewrite Hb. cbn. unfold add_events. cbn. rewrite <- !app_assoc. reflexivity.
Qed.

End Worker.

(** *** The shape of a run *)

Section WorkerShape.

Variable env : environment.

Lemma probe_steps_app (a b : list event) :
  probe_steps (a ++ b) = probe_steps a ++ probe_steps b.
Proof. apply omap_app. Qed.

(** The probe is issued in the state the assignment leaves; the answer is
    the one of the state before. *)
Lemma check_username_after_assignment (u : string) (w : world) :
  snd (check_username env u (fst (assign_last_checked u w)))
  = expected_outcome (probe_answer env w u).
Proof. rewrite check_username_run. reflexivity. Qed.

(** One turn of the loop. *)
Lemma worker_turn (u : string) (rest : list string) (w : world) :
  exists q w1,
    (worker env (u :: rest) w = (w1, Diverged) /\ q = []
     \/ worker env (u :: rest) w = worker env rest w1)
    /\ Forall (fun e => is_request e = false) q
    /\ probe_steps q = []
    /\ trace w1 = trace (after_probe env u w) ++ q
    /\ last_checked w1 = Some u.
Proof.
  cbn [worker]. unfold assign_last_checked, file_write, file_flush.
  py_unfold. cbn beta iota zeta.
  rewrite check_username_run.
  change (set_clock _ (add_events _ _)) with (after_probe env u w).
  replace (probe_answer env _ u) with (probe_answer env w u) by reflexivity.
  set (wp := after_probe env u w).
  destruct (expected_outcome (probe_answer env w u)) as [s|e|] eqn:Hs.
  - destruct (String.eqb s "available");
      [|destruct (String.eqb s "taken");
        [|destruct (String.eqb s "blocked")]]; cbn.
    + match goal with
      | |- context [save_checkpoint env ?W] =>
          destruct (save_checkpoint_run env W) as (w2 & -> & Ht & Hl & _)
      end.
      cbn in *.
      exists [EvPrint ("[AVAILABLE] " +:+ u); EvWrite (u +:+ newline); EvFlush;
              EvSaveCheckpoint (last_checked wp); EvSleep (Uniform 8 15)].
      eexists. split; [right; reflexivity|].
      split; [repeat constructor|]. split; [reflexivity|].
      split; [|exact Hl].
      cbn. rewrite Ht, <- !app_assoc. reflexivity.
    + exists [EvPrint ("[TAKEN] " +:+ u); EvSleep (Uniform 8 15)].
      eexists. split; [right; reflexivity|].
      split; [repeat constructor|]. split; [reflexivity|].
      split; [|reflexivity].
      cbn. rewrite <- !app_assoc. reflexivity.
    + exists [EvPrint "[RATE LIMIT] Sleeping 90 seconds...";
              EvSleep (Seconds 90)].
      eexists. split; [right; reflexivity|].
      split; [repeat constructor|]. split; [reflexivity|].
      split; [|reflexivity].
      cbn. rewrite <- !app_assoc. reflexivity.
    + exists [EvSleep (Uniform 8 15)].
      eexists. split; [right; reflexivity|].
      split; [repeat constructor|]. split; [reflexivity|].
      split; reflexivity.
  - destruct (expected_outcome_not_raised _ _ Hs).
  - exists [], wp. split; [left; split; reflexivity|].
    split; [constructor|]. split; [reflexivity|].
    split; [rewrite app_nil_r; reflexivity | reflexivity].
Qed.

(** A whole run: the worker pulls a first part [pulled] of the generator
    and, for each candidate of it in turn, assigns it to [last_checked] and
    then requests its profile.  The run ends when the generator is
    exhausted, or at a request that never comes back. *)
Lemma worker_run_shape (gen : list string) (w : world) :
  exists pulled left evs,
    gen = pulled ++ left
    /\ head pulled = head gen
    /\ trace (fst (worker env gen w)) = trace w ++ evs
    /\ probe_steps evs = expected_probe_steps pulled
    /\ checkpoint_before_probe None evs = true
    /\ (forall next gen', gen = next :: gen' ->
          exists evs',
            evs = EvAssignLastChecked next
                  :: EvRequest (profile_url next) (chosen_user_agent env w)
                  :: evs')
    /\ last_checked (fst (worker env gen w))
       = from_option Some (last_checked w) (last pulled)
    /\ (snd (worker env gen w) = Returned tt /\ left = []
        \/ snd (worker env gen w) = Diverged
           /\ exists before u ua evs0,
                pulled = before ++ [u]
                /\ evs = evs0 ++ [EvAssignLastChecked u;
                                  EvRequest (profile_url u) ua]).
Proof.
  revert w. induction gen as [|u rest IH]; intros w.
  - exists [], [], []. cbn. rewrite app_nil_r.
    repeat split; try reflexivity; [discriminate | left; split; reflexivity].
  - destruct (worker_turn u rest w)
      as (q & w1 & [[Hw ->] | Hw] & Hq & Hqs & Ht & Hl).
    + exists [u], rest,
        [EvAssignLastChecked u;
         EvRequest (profile_url u) (chosen_user_agent env w)].
      rewrite Hw. cbn [fst snd]. rewrite Ht, app_nil_r.
      split; [reflexivity|]. split; [reflexivity|].
      split; [cbn; rewrite <- !app_assoc; reflexivity|].
      split; [reflexivity|].
      split; [cbn [checkpoint_before_probe];
              rewrite preceded_by_own_assignment; reflexivity|].
      split; [intros next gen' [= <- <-]; eexists; reflexivity|].
      split; [exact Hl|].
      right. split; [reflexivity|].
      exists [], u, (chosen_user_agent env w), []. split; reflexivity.
    + destruct (IH w1)
        as (pulled & left & r & Hgen & Hhead & Hr & Hsteps & Hc & _ & Hlast
            & Hend).
      exists (u :: pulled), left,
        (EvAssignLastChecked u
         :: EvRequest (profile_url u) (chosen_user_agent env w) :: q ++ r).
      rewrite Hw, Hr, Ht.
      split; [cbn; congruence|]. split; [reflexivity|].
      split; [cbn; rewrite <- !app_assoc; reflexivity|].
      split.
      { change (probe_steps (?a :: ?b :: q ++ r))
          with (Assigned u :: Requested (profile_url u)
                :: probe_steps (q ++ r)).
        rewrite probe_steps_app, Hqs, Hsteps. reflexivity. }
      split.
      { cbn [checkpoint_before_probe]. rewrite preceded_by_own_assignment.
        apply checkpoint_before_probe_quiet_app; assumption. }
      split; [intros next gen' [= <- <-]; eexists; reflexivity|].
      split.
      { rewrite Hlast, Hl, last_cons. destruct (last pulled); reflexivity. }
      destruct Hend as [[Hret ->] | (Hdiv & before & u' & ua & evs0 & -> & ->)].
      * left. split; [exact Hret | reflexivity].
      * right. split; [exact Hdiv|].
        exists (u :: before), u', ua,
          (EvAssignLastChecked u
           :: EvRequest (profile_url u) (chosen_user_agent env w)
           :: q ++ evs0).
        split; [reflexivity|]. cbn. rewrite <- !app_assoc. reflexivity.
Qed.

End WorkerShape.

(** One candidate, found taken: assignment, request, report, delay. *)
Example worker_log_taken :
  worker calm_env ["a"] fresh_world
  = (add_events [EvPrint "[TAKEN] a"; EvSleep (Uniform 8 15)]
       (after_probe calm_env "a" fresh_world),
     Returned tt)
  /\ trace (fst (worker calm_env ["a"] fresh_world))
     = [EvAssignLastChecked "a";
        EvRequest "https://www.instagram.com/a/"
          "Mozilla/5.0 (Windows NT 10.0; Win64; x64)";
        EvPrint "[TAKEN] a"; EvSleep (Uniform 8 15)].
Proof. split; reflexivity. Qed.

(** A probe that never comes back: the checkpoint value is already set
    when the worker stops. *)
Example worker_log_hung_probe :
  snd (worker silent_env ["a"; "b"] fresh_world) = Diverged
  /\ last_checked (fst (worker silent_env ["a"; "b"] fresh_world)) = Some "a"
  /\ trace (fst (worker silent_env ["a"; "b"] fresh_world))
     = [EvAssignLastChecked "a";
        EvRequest "https://www.instagram.com/a/"
          "Mozilla/5.0 (Windows NT 10.0; Win64; x64)"].
Proof. repeat split; reflexivity. Qed.

(** C7.  A worker, from any state and whatever the remote service
    answers, pulls a first part [pulled] of the generator - all of it when
    it returns - and for each pulled candidate, in order, it assigns the
    candidate to [last_checked] and then requests its profile: these are
    all the assignments and requests of its log, and each request comes
    right after the assignment of its candidate.  The state agrees with
    the log: when the run ends, [last_checked] is the last candidate
    pulled.  A probe that never comes back ends the run at its request,
    and the candidate is then already in [last_checked]: the checkpoint
    value is written before the probe is issued. *)
Theorem worker_checkpoints_before_probing (env : environment)
    (username_generator : list string) (w : world) :
  exists pulled left evs,
    username_generator = pulled ++ left
    /\ trace (fst (worker env username_generator w)) = trace w ++ evs
    /\ probe_steps evs = expected_probe_steps pulled
    /\ checkpoint_before_probe None evs = true
    /\ ProbesFollowAssignment evs
    /\ last_checked (fst (worker env username_generator w))
       = from_option Some (last_checked w) (last pulled)
    /\ (snd (worker env username_generator w) = Returned tt /\ left = []
        \/ snd (worker env username_generator w) = Diverged
           /\ exists before username user_agent evs0,
                pulled = before ++ [username]
                /\ evs = evs0 ++ [EvAssignLastChecked username;
                                  EvRequest (profile_url username) user_agent]).
Proof.
  destruct (worker_run_shape env username_generator w)
    as (pulled & left & evs & Hgen & _ & Ht & Hsteps & Hc & _ & Hlast & Hend).
  exists pulled, left, evs.
  split; [exact Hgen|]. split; [exact Ht|]. split; [exact Hsteps|].
  split; [exact Hc|].
  split; [apply checkpoint_before_probe_reading, Hc|].
  split; [exact Hlast | exact Hend].
Qed.

(** C8.  When the probe that a worker issues for the candidate it has
    just pulled returns "blocked", the next actions of the worker are the
    rate-limit line and a sleep of the fixed 90 seconds; the worker is not
    terminated: after the sleep it pulls from what is left of the
    generator, so that with a candidate left its next actions are the
    assignment and the request for that candidate, and it runs on until
    the generator is exhausted or a request never comes back.  What it
    probes after the sleep are the candidates it pulls from the rest of
    the generator, each once: the blocked candidate is not probed again. *)
Theorem blocked_probe_cools_down_and_continues (env : environment)
    (username : string) (rest : list string) (w : world) :
  snd (check_username env username (fst (assign_last_checked username w)))
  = Returned "blocked" ->
  exists pulled left evs,
    rest = pulled ++ left
    /\ head pulled = head rest
    /\ trace (fst (worker env (username :: rest) w))
       = trace w
         ++ [EvAssignLastChecked username;
             EvRequest (profile_url username) (chosen_user_agent env w);
             EvPrint "[RATE LIMIT] Sleeping 90 seconds...";
             EvSleep (Seconds 90)]
         ++ evs
    /\ probe_steps evs = expected_probe_steps pulled
    /\ (forall next rest', rest = next :: rest' ->
          exists user_agent evs',
            evs = EvAssignLastChecked next
                  :: EvRequest (profile_url next) user_agent :: evs')
    /\ (snd (worker env (username :: rest) w) = Returned tt /\ left = []
        \/ snd (worker env (username :: rest) w) = Diverged
           /\ exists before last_pulled, pulled = before ++ [last_pulled])
    /\ worker env (username :: rest) w
       = worker env rest
           (add_events [EvPrint "[RATE LIMIT] Sleeping 90 seconds...";
                        EvSleep (Seconds 90)]
              (after_probe env username w)).
Proof.
  rewrite check_username_after_assignment. intros Hb.
  pose proof (worker_blocked env username rest w Hb) as Hw.
  destruct (worker_run_shape env rest
              (add_events [EvPrint "[RATE LIMIT] Sleeping 90 seconds...";
                           EvSleep (Seconds 90)]
                 (after_probe env username w)))
    as (pulled & left & evs & Hgen & Hhead & Ht & Hsteps & _ & Hnext & _
        & Hend).
  exists pulled, left, evs. rewrite Hw.
  split; [exact Hgen|]. split; [exact Hhead|].
  split; [rewrite Ht; cbn; rewrite <- !app_assoc; reflexivity|].
  split; [exact Hsteps|].
  split.
  { intros next rest' Hr. destruct (Hnext next rest' Hr) as [evs' ->]. eauto. }
  split; [|reflexivity].
  destruct Hend as [Hret | (Hdiv & before & u & _ & _ & Hp & _)];
    [left; exact Hret | right; eauto].
Qed.

Lemma blocked_probe_cools_down_and_continues_witness :
  snd (check_username busy_env "a" (fst (assign_last_checked "a" fresh_world)))
  = Returned "blocked"
  /\ exists pulled left evs,
       ["b"] = pulled ++ left
       /\ head pulled = head ["b"]
       /\ trace (fst (worker busy_env ["a"; "b"] fresh_world))
          = trace fresh_world
            ++ [EvAssignLastChecked "a";
                EvRequest (profile_url "a")
                  (chosen_user_agent busy_env fresh_world);
                EvPrint "[RATE LIMIT] Sleeping 90 seconds...";
                EvSleep (Seconds 90)]
            ++ evs
       /\ probe_steps evs = expected_probe_steps pulled
       /\ (forall next rest', ["b"] = next :: rest' ->
             exists user_agent evs',
               evs = EvAssignLastChecked next
                     :: EvRequest (profile_url next) user_agent :: evs')
       /\ (snd (worker busy_env ["a"; "b"] fresh_world) = Returned tt
           /\ left = []
           \/ snd (worker busy_env ["a"; "b"] fresh_world) = Diverged
              /\ exists before last_pulled, pulled = before ++ [last_pulled])
       /\ worker busy_env ["a"; "b"] fresh_world
          = worker busy_env ["b"]
              (add_events [EvPrint "[RATE LIMIT] Sleeping 90 seconds...";
                           EvSleep (Seconds 90)]
                 (after_probe busy_env "a" fresh_world)).
Proof.
  assert (Hb : snd (check_username busy_env "a"
                      (fst (assign_last_checked "a" fresh_world)))
               = Returned "blocked") by reflexivity.
  split; [exact Hb|].
  exact (blocked_probe_cools_down_and_continues busy_env "a" ["b"]
           fresh_world Hb).
Defined.

(** ** The orchestrator *)

Section Orchestrator.

Variable cfg : config.
Variable env : environment.

(** The exit hook stops the saver, saves once, and returns. *)
Lemma handle_exit_run (w : world) :
  exists w',
    _handle_exit env w = (w', Returned tt)
    /\ trace w' = trace w ++ [EvStopSaver; EvSaveCheckpoint (last_checked w)]
    /\ last_checked w' = last_checked w
    /\ saver_alive w' = false /\ saver_stop w' = true.
Proof.
  unfold _handle_exit, stop_checkpoint_saver. py_unfold. cbn beta iota zeta.
  match goal with
  | |- context [save_checkpoint env ?W] =>
      destruct (save_checkpoint_run env W) as (w2 & -> & Ht & Hl & Ha & Hp)
  end.
  cbn in *. exists w2. split; [reflexivity|]. split; [|auto].
  rewrite Ht, <- app_assoc. reflexivity.
Qed.

(** When the command line does not parse, main raises before its [try]:
    only the exit hook runs. *)
Lemma run_script_usage_error (pool : nat -> list string -> py unit)
    (w : world) :
  argv_threads env = None ->
  snd (run_script cfg env pool w) = Raised SystemExit
  /\ trace (fst (run_script cfg env pool w))
     = trace w ++ [EvStopSaver; EvSaveCheckpoint (last_checked w)].
Proof.
  intros Hargv. unfold run_script, main, parse_args. rewrite Hargv.
  py_unfold. cbn beta iota zeta.
  destruct (handle_exit_run w) as (w' & -> & Ht & _). cbn. auto.
Qed.

(** Once main has entered its [try], a run that ends has stopped the saver
    and saved twice in a row at its end. *)
Lemma run_script_shutdown (pool : nat -> list string -> py unit) (w : world) :
  argv_threads env <> None ->
  snd (run_script cfg env pool w) <> Diverged ->
  saver_alive (fst (run_script cfg env pool w)) = false
  /\ saver_stop (fst (run_script cfg env pool w)) = true
  /\ exists pre v,
       trace (fst (run_script cfg env pool w))
       = pre ++ [EvStopSaver; EvSaveCheckpoint v;
                 EvStopSaver; EvSaveCheckpoint v].
Proof.
  intros Hargv. unfold run_script, main, parse_args.
  destruct (argv_threads env) as [threads|]; [clear Hargv | contradiction].
  unfold mbind, py_bind, mret, py_ret. rewrite load_checkpoint_run.
  destruct (start_checkpoint_saver w) as [w1 o1] eqn:Hstart.
  assert (Ho1 : o1 = Returned tt).
  { revert Hstart. unfold start_checkpoint_saver, emit.
    destruct (negb (saver_alive w)); intros [= <- <-]; reflexivity. }
  subst o1. unfold try_finally.
  destruct (main_try_block cfg env pool threads _ w1) as [wb ob].
  change (main_finally_block env) with (_handle_exit env).
  destruct (handle_exit_run wb) as (w2 & Hfin & Ht2 & Hl2 & _).
  destruct (handle_exit_run w2) as (w3 & Hexit & Ht3 & Hl3 & Ha3 & Hp3).
  assert (Hend : trace w3
                 = trace wb ++ [EvStopSaver; EvSaveCheckpoint (last_checked wb);
                                EvStopSaver; EvSaveCheckpoint (last_checked wb)]).
  { rewrite Ht3, Ht2, Hl2, <- app_assoc. reflexivity. }
  destruct ob as [[]|e|]; rewrite ?Hfin; cbn; rewrite ?Hexit; cbn.
  - intros _. eauto 6.
  - intros _. eauto 6.
  - intros H. contradiction.
Qed.

End Orchestrator.

(** *** The end of a run that no signal interrupts *)

Section Shutdown.

Variable cfg : config.
Variable env : environment.

Lemma main_try_block_undisturbed (pool : nat -> list string -> py unit)
    (threads : Z) (start_after : pyvalue) (w : world) :
  sigterms env = 0 ->
  main_try_block cfg env pool threads start_after w
  = undisturbed_try_block cfg env pool threads start_after w.
Proof.
  intros Hsig. unfold main_try_block, undisturbed_try_block. rewrite Hsig.
  cbn [deliver_sigterms]. unfold mbind, py_bind, mret, py_ret.
  destruct (open_output env w) as [w1 [[]|e|]]; try reflexivity.
  destruct (thread_pool_executor threads w1) as [w2 [[]|e|]]; try reflexivity.
  destruct (pool _ _ w2) as [w3 [[]|e|]]; reflexivity.
Qed.

Lemma run_script_undisturbed (pool : nat -> list string -> py unit)
    (threads : Z) (start_after : pyvalue) (w : world) :
  sigterms env = 0 ->
  argv_threads env = Some threads ->
  load_checkpoint env w = (w, Returned start_after) ->
  snd (undisturbed_try_block cfg env pool threads start_after
         (fst (start_checkpoint_saver w))) <> Diverged ->
  snd (run_script cfg env pool w)
  = snd (undisturbed_try_block cfg env pool threads start_after
           (fst (start_checkpoint_saver w)))
  /\ trace (fst (run_script cfg env pool w))
     = trace (fst (undisturbed_try_block cfg env pool threads start_after
                     (fst (start_checkpoint_saver w))))
       ++ [EvStopSaver;
           EvSaveCheckpoint
             (last_checked
                (fst (undisturbed_try_block cfg env pool threads start_after
                        (fst (start_checkpoint_saver w)))));
           EvStopSaver;
           EvSaveCheckpoint
             (last_checked
                (fst (undisturbed_try_block cfg env pool threads start_after
                        (fst (start_checkpoint_saver w)))))]
  /\ saver_alive (fst (run_script cfg env pool w)) = false
  /\ saver_stop (fst (run_script cfg env pool w)) = true.
Proof.
  intros Hsig Hargv Hload. unfold run_script, main, parse_args.
  rewrite Hargv. unfold mbind, py_bind, mret, py_ret. rewrite Hload.
  destruct (start_checkpoint_saver w) as [w1 o1] eqn:Hstart.
  assert (Ho1 : o1 = Returned tt).
  { revert Hstart. unfold start_checkpoint_saver, emit.
    destruct (negb (saver_alive w)); intros [= <- <-]; reflexivity. }
  subst o1. cbn [fst]. unfold try_finally.
  rewrite main_try_block_undisturbed by exact Hsig.
  destruct (undisturbed_try_block cfg env pool threads start_after w1)
    as [wb ob].
  change (main_finally_block env) with (_handle_exit env).
  destruct (handle_exit_run env wb) as (w2 & Hfin & Ht2 & Hl2 & _).
  destruct (handle_exit_run env w2) as (w3 & Hexit & Ht3 & Hl3 & Ha3 & Hp3).
  assert (Htrace : trace w3
                   = trace wb
                     ++ [EvStopSaver; EvSaveCheckpoint (last_checked wb);
                         EvStopSaver; EvSaveCheckpoint (last_checked wb)]).
  { rewrite Ht3, Ht2, Hl2, <- app_assoc. reflexivity. }
  cbn [fst snd].
  destruct ob as [[]|e|]; rewrite ?Hfin; cbn; rewrite ?Hexit; cbn.
  - intros _. auto.
  - intros _. auto.
  - intros H. exfalso. apply H. reflexivity.
Qed.

End Shutdown.

(** The end-to-end scenario: the two free names are written to the output
    file, and the checkpoint left on disk is the last candidate. *)
Example end_to_end_scenario :
  output_file (fst (run_script ab_config scenario_env
                      (sequential_pool scenario_env) fresh_world))
  = ["a" +:+ newline; "bb" +:+ newline]
  /\ snd (load_checkpoint scenario_env
            (fst (run_script ab_config scenario_env
                    (sequential_pool scenario_env) fresh_world)))
     = Returned (PyStr "bb").
Proof. split; vm_compute; reflexivity. Qed.

(** With a thread count of 0 the executor raises inside the [try] block:
    the [finally] block and the exit hook both stop the saver and save. *)
Example run_with_zero_threads :
  snd (run_script ab_config zero_threads_env (sequential_pool zero_threads_env)
         fresh_world)
  = Raised (Exception "ValueError")
  /\ trace (fst (run_script ab_config zero_threads_env
                   (sequential_pool zero_threads_env) fresh_world))
     = [EvStartSaver; EvStopSaver; EvSaveCheckpoint None;
        EvStopSaver; EvSaveCheckpoint None].
Proof. split; vm_compute; reflexivity. Qed.

(** C9, as stated, fails: on normal completion (every name taken, so no
    worker saves; no signal, no failure) [save_checkpoint] is called twice
    at shutdown, once in the [finally] block of main and once more in the
    exit hook. *)
Lemma final_save_runs_twice_on_normal_completion :
  snd (run_script ab_config calm_env (sequential_pool calm_env) fresh_world)
  = Returned tt
  /\ count_saves
       (trace (fst (run_script ab_config calm_env (sequential_pool calm_env)
                      fresh_world)))
     = 2.
Proof. split; vm_compute; reflexivity. Qed.

(** C9, amended.  In a run that no termination signal interrupts, on
    both ways out of the [try] block of main - normal completion and an
    exception - the process stops the background saver and saves the
    checkpoint, and it does so twice, not once: the last four actions of
    the run are stop, save, stop, save, first in the [finally] block of
    main and then in the hook registered with [atexit], each save writing
    the [last_checked] that the [try] block left.  The run ends as the
    [try] block ended, with the saver stopped. *)
Theorem shutdown_stops_saver_and_saves_twice (cfg : config)
    (env : environment) (pool : nat -> list string -> py unit)
    (threads : Z) (start_after : pyvalue) (w : world) :
  sigterms env = 0 ->
  argv_threads env = Some threads ->
  load_checkpoint env w = (w, Returned start_after) ->
  snd (undisturbed_try_block cfg env pool threads start_after
         (fst (start_checkpoint_saver w))) <> Diverged ->
  snd (run_script cfg env pool w)
  = snd (undisturbed_try_block cfg env pool threads start_after
           (fst (start_checkpoint_saver w)))
  /\ trace (fst (run_script cfg env pool w))
     = trace (fst (undisturbed_try_block cfg env pool threads start_after
                     (fst (start_checkpoint_saver w))))
       ++ [EvStopSaver;
           EvSaveCheckpoint
             (last_checked
                (fst (undisturbed_try_block cfg env pool threads start_after
                        (fst (start_checkpoint_saver w)))));
           EvStopSaver;
           EvSaveCheckpoint
             (last_checked
                (fst (undisturbed_try_block cfg env pool threads start_after
                        (fst (start_checkpoint_saver w)))))]
  /\ saver_alive (fst (run_script cfg env pool w)) = false
  /\ saver_stop (fst (run_script cfg env pool w)) = true.
Proof. apply run_script_undisturbed. Qed.

Lemma shutdown_stops_saver_and_saves_twice_witness :
  sigterms zero_threads_env = 0
  /\ argv_threads zero_threads_env = Some 0%Z
  /\ load_checkpoint zero_threads_env fresh_world
     = (fresh_world, Returned PyNone)
  /\ snd (undisturbed_try_block ab_config zero_threads_env
            (sequential_pool zero_threads_env) 0 PyNone
            (fst (start_checkpoint_saver fresh_world))) <> Diverged
  /\ snd (run_script ab_config zero_threads_env
            (sequential_pool zero_threads_env) fresh_world)
     = snd (undisturbed_try_block ab_config zero_threads_env
              (sequential_pool zero_threads_env) 0 PyNone
              (fst (start_checkpoint_saver fresh_world)))
  /\ trace (fst (run_script ab_config zero_threads_env
                   (sequential_pool zero_threads_env) fresh_world))
     = trace (fst (undisturbed_try_block ab_config zero_threads_env
                     (sequential_pool zero_threads_env) 0 PyNone
                     (fst (start_checkpoint_saver fresh_world))))
       ++ [EvStopSaver;
           EvSaveCheckpoint
             (last_checked
                (fst (undisturbed_try_block ab_config zero_threads_env
                        (sequential_pool zero_threads_env) 0 PyNone
                        (fst (start_checkpoint_saver fresh_world)))));
           EvStopSaver;
           EvSaveCheckpoint
             (last_checked
                (fst (undisturbed_try_block ab_config zero_threads_env
                        (sequential_pool zero_threads_env) 0 PyNone
                        (fst (start_checkpoint_saver fresh_world)))))]
  /\ saver_alive (fst (run_script ab_config zero_threads_env
                         (sequential_pool zero_threads_env) fresh_world))
     = false
  /\ saver_stop (fst (run_script ab_config zero_threads_env
                        (sequential_pool zero_threads_env) fresh_world))
     = true.
Proof.
  assert (Hs : sigterms zero_threads_env = 0) by reflexivity.
  assert (Ha : argv_threads zero_threads_env = Some 0%Z) by reflexivity.
  assert (Hl : load_checkpoint zero_threads_env fresh_world
               = (fresh_world, Returned PyNone)) by (vm_compute; reflexivity).
  assert (Hd : snd (undisturbed_try_block ab_config zero_threads_env
                      (sequential_pool zero_threads_env) 0 PyNone
                      (fst (start_checkpoint_saver fresh_world))) <> Diverged)
    by (vm_compute; discriminate).
  split; [exact Hs|]. split; [exact Ha|]. split; [exact Hl|].
  split; [exact Hd|].
  exact (shutdown_stops_saver_and_saves_twice ab_config zero_threads_env
           (sequential_pool zero_threads_env) 0 PyNone fresh_world
           Hs Ha Hl Hd).
Defined.

(** * Part III: further properties of the code *)

(** ** The validity test and the generator *)

(** X1. [is_valid_instagram_username] returns [True] exactly for the
    strings whose length is within the bounds, that neither start nor end
    with a dot, that hold no two dots in a row, and whose characters are
    all in the alphabet. *)
Theorem is_valid_instagram_username_decides_rules (cfg : config)
    (username : string) :
  is_valid_instagram_username cfg username = true
  <-> (MIN_LEN cfg <= String.length username <= MAX_LEN cfg
       /\ ~ (exists t, chars username = "."%char :: t)
       /\ ~ (exists t, chars username = t ++ ["."%char])
       /\ ~ (exists p q, chars username = p ++ "."%char :: "."%char :: q)
       /\ forall c, c ∈ chars username -> c ∈ chars (ALLOWED cfg)).
Proof.
  rewrite is_valid_spec. unfold ValidCandidate. tauto.
Qed.


(** X3. Whatever the resume value, the generator yields only usernames
    that pass the validity test, and only ones that the generator started
    from scratch yields too. *)
Theorem generate_usernames_yields_only_valid (cfg : config) (v : pyvalue)
    (u : string) :
  u ∈ generate_usernames cfg v ->
  is_valid_instagram_username cfg u = true
  /\ u ∈ generate_usernames cfg PyNone.
Proof.
  intros Hu. destruct (generate_usernames_suffix cfg v) as [skipped Hs].
  assert (Hin : u ∈ generate_usernames cfg PyNone).
  { rewrite Hs. apply elem_of_app. right. exact Hu. }
  split; [|exact Hin].
  rewrite generate_usernames_fresh, elem_of_valid_usernames in Hin.
  apply is_valid_spec, Hin.
Qed.

Lemma generate_usernames_yields_only_valid_witness :
  "ab" ∈ generate_usernames ab_config (PyStr "aa")
  /\ is_valid_instagram_username ab_config "ab" = true
  /\ "ab" ∈ generate_usernames ab_config PyNone.
Proof.
  assert (Hu : "ab" ∈ generate_usernames ab_config (PyStr "aa"))
    by (apply (bool_decide_unpack _); vm_compute; exact I).
  split; [exact Hu|].
  exact (generate_usernames_yields_only_valid ab_config (PyStr "aa") "ab" Hu).
Defined.

(** X4. A resume value that is neither [None] nor a string (a number, a
    list, an object read from the checkpoint file) equals no username, so
    the generator skips every candidate and yields nothing. *)
Theorem generate_usernames_non_string_resume (cfg : config) (v : pyvalue) :
  is_None v = false ->
  (forall s, v <> PyStr s) ->
  generate_usernames cfg v = [].
Proof.
  intros Hn Hs. apply generate_usernames_other; [exact Hn|].
  intros u. destruct v; try reflexivity. destruct (Hs _ eq_refl).
Qed.

Lemma generate_usernames_non_string_resume_witness :
  is_None (PyInt 5) = false
  /\ (forall s, PyInt 5 <> PyStr s)
  /\ generate_usernames default_config (PyInt 5) = [].
Proof.
  assert (Hn : is_None (PyInt 5) = false) by reflexivity.
  assert (Hs : forall s, PyInt 5 <> PyStr s) by (intros s; discriminate).
  split; [exact Hn|]. split; [exact Hs|].
  exact (generate_usernames_non_string_resume default_config (PyInt 5) Hn Hs).
Defined.

(** X5. When MAX_LEN is below MIN_LEN the range of lengths is empty and
    the generator yields nothing, whatever the resume value. *)
Theorem generate_usernames_empty_range (cfg : config) (v : pyvalue) :
  MAX_LEN cfg < MIN_LEN cfg -> generate_usernames cfg v = [].
Proof.
  intros Hlt. unfold generate_usernames, range.
  replace (MAX_LEN cfg + 1 - MIN_LEN cfg) with 0 by lia. reflexivity.
Qed.

Lemma generate_usernames_empty_range_witness :
  MAX_LEN empty_range_config < MIN_LEN empty_range_config
  /\ generate_usernames empty_range_config PyNone = [].
Proof.
  assert (Hlt : MAX_LEN empty_range_config < MIN_LEN empty_range_config)
    by (cbn; lia).
  split; [exact Hlt|].
  exact (generate_usernames_empty_range empty_range_config PyNone Hlt).
Defined.

(** X6. With an alphabet of distinct characters, a generator resumed after
    a username of the enumeration yields only usernames that come strictly
    after it in the order (length, then alphabet index), and never that
    username again. *)
Theorem generate_usernames_resumed_after (cfg : config) (u x : string) :
  NoDup (chars (ALLOWED cfg)) ->
  u ∈ generate_usernames cfg PyNone ->
  x ∈ generate_usernames cfg (PyStr u) ->
  candidate_lt cfg u x /\ x <> u.
Proof.
  intros Hnd Hu Hx.
  apply list_elem_of_lookup in Hu as [k Hk].
  rewrite (generate_usernames_resume_at cfg k u Hnd Hk) in Hx.
  pose proof (valid_usernames_sorted cfg Hnd) as Hs.
  rewrite <- generate_usernames_fresh in Hs.
  rewrite <- (take_drop_middle _ _ _ Hk) in Hs.
  apply StronglySorted_app_1_r, StronglySorted_cons in Hs as [Hall _].
  rewrite Forall_forall in Hall. specialize (Hall x Hx).
  split; [exact Hall|].
  intros ->. eapply candidate_lt_irrefl. exact Hall.
Qed.

Lemma generate_usernames_resumed_after_witness :
  NoDup (chars (ALLOWED ab_config))
  /\ "b" ∈ generate_usernames ab_config PyNone
  /\ "ab" ∈ generate_usernames ab_config (PyStr "b")
  /\ candidate_lt ab_config "b" "ab" /\ "ab" <> "b".
Proof.
  assert (Hnd : NoDup (chars (ALLOWED ab_config)))
    by (apply (bool_decide_unpack _); vm_compute; exact I).
  assert (Hu : "b" ∈ generate_usernames ab_config PyNone)
    by (apply (bool_decide_unpack _); vm_compute; exact I).
  assert (Hx : "ab" ∈ generate_usernames ab_config (PyStr "b"))
    by (apply (bool_decide_unpack _); vm_compute; exact I).
  split; [exact Hnd|]. split; [exact Hu|]. split; [exact Hx|].
  exact (generate_usernames_resumed_after ab_config "b" "ab" Hnd Hu Hx).
Defined.

(** ** The probe client *)

Lemma chosen_user_agent_in_pool (env : environment) (w : world) :
  chosen_user_agent env w ∈ USER_AGENTS.
Proof.
  unfold chosen_user_agent.
  destruct (lookup_lt_is_Some_2 USER_AGENTS
              (random_index env (clock w) mod length USER_AGENTS))
    as [ua Hua].
  - apply Nat.mod_upper_bound. discriminate.
  - rewrite Hua. cbn. eapply list_elem_of_lookup_2. exact Hua.
Qed.

(** X7. Whatever the service answers, one call of [check_username] makes
    exactly one request, to the profile URL of the username and with a
    User-Agent of the fixed pool of four; it never raises (a transport
    failure is turned into "error"), and it leaves [last_checked], the
    files and the output file alone. *)
Theorem check_username_one_request_no_raise (env : environment)
    (username : string) (w : world) :
  trace (fst (check_username env username w))
  = trace w ++ [EvRequest (profile_url username) (chosen_user_agent env w)]
  /\ chosen_user_agent env w ∈ USER_AGENTS
  /\ (forall e, snd (check_username env username w) <> Raised e)
  /\ last_checked (fst (check_username env username w)) = last_checked w
  /\ fs (fst (check_username env username w)) = fs w
  /\ output_file (fst (check_username env username w)) = output_file w.
Proof.
  rewrite check_username_run. cbn.
  split; [reflexivity|]. split; [apply chosen_user_agent_in_pool|].
  split; [intros e; apply expected_outcome_not_raised|]. auto.
Qed.

(** ** The checkpoint store *)

Section Store.

Variable env : environment.

Local Abbreviation tmp := (CHECKPOINT_FILE +:+ ".tmp").

Lemma tmp_differs : tmp <> CHECKPOINT_FILE.
Proof. discriminate. Qed.

(** What one run of the [try] block of [save_checkpoint] does to the
    files: it ends with the complete dump in the checkpoint file and no
    temporary file, or it raises and has touched the temporary file only. *)
Lemma save_checkpoint_attempt_files (w : world) :
  (snd (save_checkpoint_attempt env w) = Returned tt
   /\ fs (fst (save_checkpoint_attempt env w)) !! CHECKPOINT_FILE
      = Some (File (json_dumps env
                      (PyDict {[ "last" := py_of_option (last_checked w) ]})))
   /\ fs (fst (save_checkpoint_attempt env w)) !! tmp = None
   /\ forall path, path <> CHECKPOINT_FILE -> path <> tmp ->
        fs (fst (save_checkpoint_attempt env w)) !! path = fs w !! path)
  \/ ((exists e, snd (save_checkpoint_attempt env w)
                 = Raised (Exception e))
      /\ forall path, path <> tmp ->
           fs (fst (save_checkpoint_attempt env w)) !! path = fs w !! path).
Proof.
  unfold save_checkpoint_attempt, open_for_writing, json_dump, os_replace.
  py_unfold. cbn.
  destruct (io_fails env (clock w)); cbn; [right; eauto|].
  destruct (io_fails env (S (clock w))); cbn.
  { right. split; [eauto|]. intros path Hp.
    rewrite !lookup_insert_ne by congruence. reflexivity. }
  destruct (io_fails env (S (S (clock w)))); cbn.
  { right. split; [eauto|]. intros path Hp.
    rewrite !lookup_insert_ne by congruence. reflexivity. }
  rewrite lookup_insert_eq. cbn. left. split; [reflexivity|].
  split; [apply lookup_insert_eq|]. split.
  - rewrite lookup_insert_ne by (apply not_eq_sym, tmp_differs).
    apply lookup_delete_eq.
  - intros path Hc Ht. rewrite lookup_insert_ne by congruence.
    rewrite lookup_delete_ne by congruence.
    rewrite !lookup_insert_ne by congruence. reflexivity.
Qed.

(** [save_checkpoint] returns, whatever happens in its [try] block, in the
    state that block leaves. *)
Lemma save_checkpoint_unfold (w : world) :
  save_checkpoint env w
  = (fst (save_checkpoint_attempt env
            (add_events [EvSaveCheckpoint (last_checked w)] w)),
     Returned tt).
Proof.
  unfold save_checkpoint. py_unfold. cbn beta iota zeta.
  change (set_trace (trace w ++ [EvSaveCheckpoint (last_checked w)]) w)
    with (add_events [EvSaveCheckpoint (last_checked w)] w).
  destruct (save_checkpoint_attempt_files
              (add_events [EvSaveCheckpoint (last_checked w)] w))
    as [(Hr & _) | ([e He] & _)];
    destruct (save_checkpoint_attempt env _) as [w1 o]; cbn in *; subst o;
    reflexivity.
Qed.

Lemma save_checkpoint_state (w : world) :
  let w' := fst (save_checkpoint env w) in
  snd (save_checkpoint env w) = Returned tt
  /\ trace w' = trace w ++ [EvSaveCheckpoint (last_checked w)]
  /\ last_checked w' = last_checked w
  /\ saver_alive w' = saver_alive w /\ saver_stop w' = saver_stop w
  /\ output_file w' = output_file w.
Proof.
  rewrite save_checkpoint_unfold. cbn [fst snd].
  pose proof (save_checkpoint_attempt_frame env
                (add_events [EvSaveCheckpoint (last_checked w)] w))
    as (Ht & Hl & Ha & Hp & Ho & _).
  cbn zeta in *. rewrite Ht, Hl, Ha, Hp, Ho. repeat split; reflexivity.
Qed.

Lemma load_checkpoint_by_file (w1 w2 : world) :
  fs w1 !! CHECKPOINT_FILE = fs w2 !! CHECKPOINT_FILE ->
  snd (load_checkpoint env w1) = snd (load_checkpoint env w2).
Proof.
  intros H. rewrite !load_checkpoint_run. cbn. rewrite H. reflexivity.
Qed.

End Store.

Lemma save_checkpoint_file_after (env : environment) (w : world) :
  fs (fst (save_checkpoint env w)) !! CHECKPOINT_FILE
  = fs w !! CHECKPOINT_FILE
  \/ fs (fst (save_checkpoint env w)) !! CHECKPOINT_FILE
     = Some (File (json_dumps env
                     (PyDict {[ "last" := py_of_option (last_checked w) ]}))).
Proof.
  rewrite save_checkpoint_unfold. cbn [fst].
  destruct (save_checkpoint_attempt_files env
              (add_events [EvSaveCheckpoint (last_checked w)] w))
    as [(_ & Hc & _) | (_ & Hother)].
  - right. exact Hc.
  - left. apply Hother. apply not_eq_sym, tmp_differs.
Qed.

(** X8. [save_checkpoint] never raises, whatever file operation fails: it
    returns, having logged one save, and leaves [last_checked], the saver
    flags and the output file as they were. *)
Theorem save_checkpoint_swallows_failures (env : environment) (w : world) :
  snd (save_checkpoint env w) = Returned tt
  /\ trace (fst (save_checkpoint env w))
     = trace w ++ [EvSaveCheckpoint (last_checked w)]
  /\ last_checked (fst (save_checkpoint env w)) = last_checked w
  /\ saver_alive (fst (save_checkpoint env w)) = saver_alive w
  /\ saver_stop (fst (save_checkpoint env w)) = saver_stop w
  /\ output_file (fst (save_checkpoint env w)) = output_file w.
Proof. apply save_checkpoint_state. Qed.

(** When no file operation fails, the overlapped call returns and leaves
    an empty checkpoint file: the file it moved into place is the one the
    other thread had just truncated. *)
Lemma save_checkpoint_overlapped_file (env : environment) (w : world) :
  (forall t, io_fails env t = false) ->
  snd (save_checkpoint_overlapped env w) = Returned tt
  /\ fs (fst (save_checkpoint_overlapped env w)) !! CHECKPOINT_FILE
     = Some (File "").
Proof.
  intros Hio.
  unfold save_checkpoint_overlapped, open_for_writing, json_dump, os_replace.
  py_unfold. cbn. repeat (rewrite !Hio; cbn).
  rewrite lookup_insert_eq. cbn. split; [reflexivity|].
  apply lookup_insert_eq.
Qed.

(** X9.  A call of [save_checkpoint] that runs alone replaces the
    checkpoint file atomically: after the call, whichever file operation
    failed and however little of the text a failing write left, the
    checkpoint file is either exactly as it was before or holds the
    complete dump of the new value.  The call has to run alone: the file
    operations are under no lock and share one temporary path, and when
    another thread opens the temporary file between the write and the
    [os.replace] of the first, the first call returns, with no operation
    failing, and leaves an empty checkpoint file. *)
Theorem save_checkpoint_all_or_nothing (env : environment) (w : world) :
  (fs (fst (save_checkpoint env w)) !! CHECKPOINT_FILE
   = fs w !! CHECKPOINT_FILE
   \/ fs (fst (save_checkpoint env w)) !! CHECKPOINT_FILE
      = Some (File (json_dumps env
                      (PyDict {[ "last" := py_of_option (last_checked w) ]}))))
  /\ ((forall t, io_fails env t = false) ->
      snd (save_checkpoint_overlapped env w) = Returned tt
      /\ fs (fst (save_checkpoint_overlapped env w)) !! CHECKPOINT_FILE
         = Some (File "")).
Proof.
  split; [apply save_checkpoint_file_after|].
  apply save_checkpoint_overlapped_file.
Qed.

(** X10. [save_checkpoint] touches two paths only, the checkpoint file and
    its ".tmp" companion: every other file is as before.  When its [try]
    block runs to the end, no temporary file is left. *)
Theorem save_checkpoint_touches_two_paths (env : environment) (w : world) :
  (forall path,
     path <> CHECKPOINT_FILE -> path <> CHECKPOINT_FILE +:+ ".tmp" ->
     fs (fst (save_checkpoint env w)) !! path = fs w !! path)
  /\ (snd (save_checkpoint_attempt env
             (add_events [EvSaveCheckpoint (last_checked w)] w))
      = Returned tt ->
      fs (fst (save_checkpoint env w)) !! (CHECKPOINT_FILE +:+ ".tmp") = None).
Proof.
  rewrite save_checkpoint_unfold. cbn [fst].
  destruct (save_checkpoint_attempt_files env
              (add_events [EvSaveCheckpoint (last_checked w)] w))
    as [(_ & _ & Ht & Hother) | ([e He] & Hother)].
  - split; [exact Hother | intros _; exact Ht].
  - split; [intros path _ Hp; apply Hother, Hp|].
    rewrite He. discriminate.
Qed.

(** X11.  After a call of [save_checkpoint] that runs alone, successful
    or not, [load_checkpoint] returns either what it returned before the
    call or the value that was being saved: a reader does not see a
    half-written checkpoint.  With a second thread inside
    [save_checkpoint] this is lost: when that thread opens the temporary
    file between the write and the [os.replace] of the first, a reader
    then gets [None], whatever was on disk and whatever was being saved.
    The [json] library is taken to load what it dumped, and to reject an
    empty text. *)
Theorem load_after_save_old_or_new (env : environment) (w : world) :
  json_roundtrips env ->
  (snd (load_checkpoint env (fst (save_checkpoint env w)))
   = snd (load_checkpoint env w)
   \/ snd (load_checkpoint env (fst (save_checkpoint env w)))
      = Returned (py_of_option (last_checked w)))
  /\ ((forall t, io_fails env t = false) ->
      json_loads env "" = None ->
      snd (load_checkpoint env (fst (save_checkpoint_overlapped env w)))
      = Returned PyNone).
Proof.
  intros Hjson. split.
  - destruct (save_checkpoint_file_after env w) as [Hold | Hnew].
    + left. apply load_checkpoint_by_file, Hold.
    + right. rewrite load_checkpoint_run. cbn [snd].
      rewrite Hnew, Hjson, lookup_singleton_eq. reflexivity.
  - intros Hio Hempty.
    destruct (save_checkpoint_overlapped_file env w Hio) as [_ Hfile].
    rewrite load_checkpoint_run. cbn [snd]. rewrite Hfile, Hempty.
    reflexivity.
Qed.

Lemma load_after_save_old_or_new_witness :
  json_roundtrips calm_env
  /\ (snd (load_checkpoint calm_env (fst (save_checkpoint calm_env world_at_ab)))
      = snd (load_checkpoint calm_env world_at_ab)
      \/ snd (load_checkpoint calm_env
                (fst (save_checkpoint calm_env world_at_ab)))
         = Returned (py_of_option (last_checked world_at_ab)))
  /\ ((forall t, io_fails calm_env t = false) ->
      json_loads calm_env "" = None ->
      snd (load_checkpoint calm_env
             (fst (save_checkpoint_overlapped calm_env world_at_ab)))
      = Returned PyNone).
Proof.
  split; [exact sample_json_roundtrips|].
  exact (load_after_save_old_or_new calm_env world_at_ab
           sample_json_roundtrips).
Defined.

(** "bb" is on disk and "ab" is being saved; after the overlapped call a
    reader gets neither. *)
Example overlapped_save_loses_checkpoint :
  snd (load_checkpoint calm_env world_resaving) = Returned (PyStr "bb")
  /\ last_checked world_resaving = Some "ab"
  /\ snd (save_checkpoint_overlapped calm_env world_resaving) = Returned tt
  /\ snd (load_checkpoint calm_env
            (fst (save_checkpoint_overlapped calm_env world_resaving)))
     = Returned PyNone.
Proof. repeat split; vm_compute; reflexivity. Qed.

(** X12. A restart resumes right after the checkpoint: when a worker had
    been handed the candidate at position [k] of the enumeration and the
    [try] block of [save_checkpoint] then ran to the end, a later
    [load_checkpoint] returns a value from which [generate_usernames]
    yields exactly the enumeration from position [k+1] on.  The alphabet
    has distinct characters and the [json] library loads what it dumped. *)
Theorem restart_resumes_after_checkpoint (cfg : config) (env : environment)
    (k : nat) (u : string) (w : world) :
  NoDup (chars (ALLOWED cfg)) ->
  json_roundtrips env ->
  generate_usernames cfg PyNone !! k = Some u ->
  last_checked w = Some u ->
  snd (save_checkpoint_attempt env
         (add_events [EvSaveCheckpoint (last_checked w)] w)) = Returned tt ->
  exists v,
    snd (load_checkpoint env (fst (save_checkpoint env w))) = Returned v
    /\ generate_usernames cfg v = drop (S k) (generate_usernames cfg PyNone).
Proof.
  intros Hnd Hjson Hk Hu Hok. exists (PyStr u). split.
  - rewrite load_checkpoint_run, save_checkpoint_unfold. cbn [fst snd].
    destruct (save_checkpoint_attempt_files env
                (add_events [EvSaveCheckpoint (last_checked w)] w))
      as [(_ & Hc & _) | ([e He] & _)]; [|congruence].
    rewrite Hc. cbn [add_events last_checked set_trace].
    rewrite Hjson, lookup_singleton_eq, Hu. reflexivity.
  - apply generate_usernames_resume_at; assumption.
Qed.

Lemma restart_resumes_after_checkpoint_witness :
  NoDup (chars (ALLOWED default_config))
  /\ json_roundtrips calm_env
  /\ generate_usernames default_config PyNone !! 1 = Some "b"
  /\ last_checked world_at_b = Some "b"
  /\ snd (save_checkpoint_attempt calm_env
            (add_events [EvSaveCheckpoint (last_checked world_at_b)]
               world_at_b)) = Returned tt
  /\ exists v,
       snd (load_checkpoint calm_env (fst (save_checkpoint calm_env world_at_b)))
       = Returned v
       /\ generate_usernames default_config v
          = drop 2 (generate_usernames default_config PyNone).
Proof.
  assert (Hk : generate_usernames default_config PyNone !! 1 = Some "b")
    by reflexivity.
  assert (Hu : last_checked world_at_b = Some "b") by reflexivity.
  assert (Hok : snd (save_checkpoint_attempt calm_env
                       (add_events [EvSaveCheckpoint (last_checked world_at_b)]
                          world_at_b)) = Returned tt)
    by (vm_compute; reflexivity).
  split; [exact default_alphabet_distinct|].
  split; [exact sample_json_roundtrips|].
  split; [exact Hk|]. split; [exact Hu|]. split; [exact Hok|].
  exact (restart_resumes_after_checkpoint default_config calm_env 1 "b"
           world_at_b default_alphabet_distinct sample_json_roundtrips
           Hk Hu Hok).
Defined.

(** ** The worker *)

Section WorkerRuns.

Variable env : environment.

(** The state after the report of a free name: the line is in the output
    file and flushed, the checkpoint saved, the delay slept. *)
Lemma worker_available (u : string) (rest : list string) (w : world) :
  expected_outcome (probe_answer env w u) = Returned "available" ->
  worker env (u :: rest) w
  = worker env rest
      (add_events [EvSleep (Uniform 8 15)]
         (fst (save_checkpoint env
                 (add_events [EvFlush]
                    (add_events [EvWrite (u +:+ newline)]
                       (set_output_file
                          (output_file w ++ [u +:+ newline])
                          (add_events [EvPrint ("[AVAILABLE] " +:+ u)]
                             (after_probe env u w)))))))).
Proof.
  intros Ha. cbn [worker]. unfold assign_last_checked, file_write, file_flush.
  py_unfold. cbn beta iota zeta. rewrite check_username_run.
  replace (probe_answer env _ u) with (probe_answer env w u) by reflexivity.
  rewrite Ha. cbn. rewrite !save_checkpoint_unfold. cbn. reflexivity.
Qed.

Lemma count_requests_app (a b : list event) :
  count_requests (a ++ b) = count_requests a + count_requests b.
Proof.
  unfold count_requests. rewrite List.filter_app. apply length_app.
Qed.

Ltac count_events :=
  unfold count_requests in *;
  repeat rewrite List.filter_app; repeat rewrite length_app; cbn; lia.

(** One turn of the loop, by its effect on the state: [last_checked] is
    the candidate, one request has been made, and the output file is as
    before or one line longer. *)
Lemma worker_step_state (u : string) (rest : list string) (w : world) :
  exists w1,
    (worker env (u :: rest) w = (w1, Diverged)
     \/ worker env (u :: rest) w = worker env rest w1)
    /\ last_checked w1 = Some u
    /\ (output_file w1 = output_file w
        \/ output_file w1 = output_file w ++ [u +:+ newline])
    /\ count_requests (trace w1) = S (count_requests (trace w)).
Proof.
  assert (Hreq : count_requests (trace (after_probe env u w))
                 = S (count_requests (trace w))).
  { unfold after_probe, add_events. cbn [trace set_clock set_trace].
    count_events. }
  destruct (expected_outcome (probe_answer env w u)) as [s|e|] eqn:Hs.
  - destruct (String.eqb_spec s "available") as [->|Hna].
    { rewrite (worker_available u rest w Hs). eexists. split; [right; reflexivity|].
      match goal with
      | |- context [save_checkpoint env ?W] =>
          pose proof (save_checkpoint_state env W) as (_ & Ht & Hl & _ & _ & Ho)
      end.
      cbn [add_events last_checked output_file trace set_trace] in *.
      rewrite Hl, Ho, Ht. cbn. split; [reflexivity|]. split; [right; reflexivity|].
      count_events. }
    cbn [worker]. unfold assign_last_checked. py_unfold. cbn beta iota zeta.
    rewrite check_username_run.
    replace (probe_answer env _ u) with (probe_answer env w u) by reflexivity.
    rewrite Hs. apply String.eqb_neq in Hna. rewrite Hna.
    destruct (String.eqb s "taken"); [|destruct (String.eqb s "blocked")];
      cbn; (eexists; split; [right; reflexivity|]); cbn;
      (split; [reflexivity|]); (split; [left; reflexivity|]);
      count_events.
  - destruct (expected_outcome_not_raised _ _ Hs).
  - exists (after_probe env u w). split; [|split; [reflexivity|split;
      [left; reflexivity | exact Hreq]]].
    left. cbn [worker]. unfold assign_last_checked. py_unfold.
    cbn beta iota zeta. rewrite check_username_run.
    replace (probe_answer env _ u) with (probe_answer env w u) by reflexivity.
    rewrite Hs. reflexivity.
Qed.

(** Over a whole run the output file only grows, by lines that are
    candidates of the generator. *)
Lemma worker_output_grows (gen : list string) (w : world) :
  exists added,
    output_file (fst (worker env gen w)) = output_file w ++ added
    /\ forall line, line ∈ added ->
         exists u, u ∈ gen /\ line = u +:+ newline.
Proof.
  revert w. induction gen as [|u rest IH]; intros w.
  - exists []. split; [symmetry; apply app_nil_r|].
    intros line Hl. inversion Hl.
  - destruct (worker_step_state u rest w) as (w1 & Hrun & _ & Hout & _).
    assert (Hone : exists a, output_file w1 = output_file w ++ a
                     /\ forall line, line ∈ a -> line = u +:+ newline).
    { destruct Hout as [Ho | Ho].
      - exists []. split; [rewrite Ho; symmetry; apply app_nil_r|].
        intros line Hl. inversion Hl.
      - exists [u +:+ newline]. split; [exact Ho|].
        intros line Hl. apply list_elem_of_singleton in Hl. exact Hl. }
    destruct Hone as (a & Ha & Hlines).
    destruct Hrun as [Hd | Hc].
    + exists a. rewrite Hd. cbn [fst]. split; [exact Ha|].
      intros line Hl. exists u. split; [left | auto].
    + destruct (IH w1) as (b & Hb & Hblines).
      exists (a ++ b). rewrite Hc, Hb, Ha, app_assoc. split; [reflexivity|].
      intros line Hl. apply elem_of_app in Hl as [Hl | Hl].
      * exists u. split; [left | auto].
      * destruct (Hblines line Hl) as (v & Hv & ->).
        exists v. split; [right; exact Hv | reflexivity].
Qed.

(** A worker that returns has probed each candidate of the generator
    once, and [last_checked] is the last of them. *)
Lemma worker_returned_state (gen : list string) (w : world) :
  snd (worker env gen w) = Returned tt ->
  count_requests (trace (fst (worker env gen w)))
  = count_requests (trace w) + length gen
  /\ last_checked (fst (worker env gen w))
     = from_option Some (last_checked w) (last gen).
Proof.
  revert w. induction gen as [|u rest IH]; intros w Hret.
  - cbn. split; [lia | reflexivity].
  - destruct (worker_step_state u rest w) as (w1 & Hrun & Hl & _ & Hreq).
    destruct Hrun as [Hd | Hc].
    + rewrite Hd in Hret. discriminate.
    + rewrite Hc in *. destruct (IH w1 Hret) as [Hn Hlast].
      rewrite Hn, Hreq, Hlast, Hl. split; [cbn [length]; lia|].
      rewrite last_cons. destruct (last rest); reflexivity.
Qed.

End WorkerRuns.



(** X14. A worker never removes or rewrites what the output file holds: at
    the end of any run, finished or hung, the file is what it was followed
    by new lines, and each new line is a candidate that the generator
    handed to the worker, followed by a newline. *)
Theorem worker_only_appends_candidates (env : environment)
    (username_generator : list string) (w : world) :
  exists added,
    output_file (fst (worker env username_generator w))
    = output_file w ++ added
    /\ forall line, line ∈ added ->
         exists u, u ∈ username_generator /\ line = u +:+ newline.
Proof. apply worker_output_grows. Qed.

(** X15.  A worker that returns has, for each candidate the generator
    handed to it and in the order of the generator, assigned the candidate
    to [last_checked] and then requested its profile; its log holds these
    assignments and requests and no others, so one request for each
    candidate, no retry and no candidate left out; [last_checked] is then
    the last candidate of the generator (or unchanged when the generator
    was empty). *)
Theorem worker_probes_each_candidate_once (env : environment)
    (username_generator : list string) (w : world) :
  snd (worker env username_generator w) = Returned tt ->
  exists evs,
    trace (fst (worker env username_generator w)) = trace w ++ evs
    /\ probe_steps evs = expected_probe_steps username_generator
    /\ count_requests evs = length username_generator
    /\ last_checked (fst (worker env username_generator w))
       = from_option Some (last_checked w) (last username_generator).
Proof.
  intros Hret.
  destruct (worker_run_shape env username_generator w)
    as (pulled & left & evs & Hgen & _ & Ht & Hsteps & _ & _ & Hlast & Hend).
  destruct Hend as [[_ ->] | [Hdiv _]]; [|congruence].
  rewrite app_nil_r in Hgen. subst pulled.
  exists evs. split; [exact Ht|]. split; [exact Hsteps|].
  split; [|exact Hlast].
  destruct (worker_returned_state env username_generator w Hret) as [Hn _].
  rewrite Ht, count_requests_app in Hn. lia.
Qed.

Lemma worker_probes_each_candidate_once_witness :
  snd (worker busy_env ["a"; "b"; "bb"] fresh_world) = Returned tt
  /\ exists evs,
       trace (fst (worker busy_env ["a"; "b"; "bb"] fresh_world))
       = trace fresh_world ++ evs
       /\ probe_steps evs = expected_probe_steps ["a"; "b"; "bb"]
       /\ count_requests evs = length ["a"; "b"; "bb"]
       /\ last_checked (fst (worker busy_env ["a"; "b"; "bb"] fresh_world))
          = from_option Some (last_checked fresh_world)
              (last ["a"; "b"; "bb"]).
Proof.
  assert (Hr : snd (worker busy_env ["a"; "b"; "bb"] fresh_world)
               = Returned tt) by (vm_compute; reflexivity).
  split; [exact Hr|].
  exact (worker_probes_each_candidate_once busy_env ["a"; "b"; "bb"]
           fresh_world Hr).
Defined.

(** ** The background saver thread *)

Lemma saver_thread_intervals (env : environment) (n : nat)
    (rest : list bool) (w : world) :
  saver_stop w = false ->
  exists w',
    _saver_thread_func env (replicate n false ++ true :: rest) w
    = (w', Returned tt)
    /\ trace w' = trace w ++ replicate n (EvSaveCheckpoint (last_checked w))
    /\ last_checked w' = last_checked w
    /\ output_file w' = output_file w.
Proof.
  revert w. induction n as [|n IH]; intros w Hstop; cbn; rewrite Hstop.
  - eexists. split; [reflexivity|]. cbn. rewrite app_nil_r. auto.
  - py_unfold.
    pose proof (save_checkpoint_state env w) as (Hr & Ht & Hl & _ & Hp & Ho).
    cbn zeta in *.
    destruct (save_checkpoint env w) as [w1 o1]. cbn [fst snd] in *. subst o1.
    destruct (IH w1) as (w' & Hrun & Ht' & Hl' & Ho'); [congruence|].
    exists w'. split; [exact Hrun|].
    rewrite Ht', Hl', Ho', Ht, Hl, Ho, <- app_assoc. auto.
Qed.

(** X16. The saver thread saves once for every interval that runs out
    before the stop flag is set, each time the value [last_checked] has at
    that moment, and returns at the first wait that finds the flag set; it
    changes neither [last_checked] nor the output file. *)
Theorem saver_thread_saves_every_interval (env : environment) (n : nat)
    (rest : list bool) (w : world) :
  saver_stop w = false ->
  exists w',
    _saver_thread_func env (replicate n false ++ true :: rest) w
    = (w', Returned tt)
    /\ trace w' = trace w ++ replicate n (EvSaveCheckpoint (last_checked w))
    /\ last_checked w' = last_checked w
    /\ output_file w' = output_file w.
Proof. apply saver_thread_intervals. Qed.

Lemma saver_thread_saves_every_interval_witness :
  saver_stop world_at_ab = false
  /\ exists w',
       _saver_thread_func calm_env (replicate 2 false ++ true :: [false])
         world_at_ab
       = (w', Returned tt)
       /\ trace w'
          = trace world_at_ab
            ++ replicate 2 (EvSaveCheckpoint (last_checked world_at_ab))
       /\ last_checked w' = last_checked world_at_ab
       /\ output_file w' = output_file world_at_ab.
Proof.
  assert (Hs : saver_stop world_at_ab = false) by reflexivity.
  split; [exact Hs|].
  exact (saver_thread_saves_every_interval calm_env 2 [false] world_at_ab Hs).
Defined.

(** Once [stop_checkpoint_saver] has run, the saver thread saves no
    more: however its waits would have turned out, its function returns at
    once and changes nothing. *)
Lemma saver_thread_stops_when_told (env : environment)
    (wakeups : list bool) (w : world) :
  _saver_thread_func env wakeups (fst (stop_checkpoint_saver w))
  = (fst (stop_checkpoint_saver w), Returned tt).
Proof. destruct wakeups; reflexivity. Qed.

(** ** The orchestrator *)

Section Exit.

Variable cfg : config.
Variable env : environment.

Hypothesis json_ok : json_roundtrips env.
Hypothesis io_ok : forall t, io_fails env t = false.

Lemma save_checkpoint_attempt_ok (w : world) :
  snd (save_checkpoint_attempt env w) = Returned tt.
Proof.
  unfold save_checkpoint_attempt, open_for_writing, json_dump, os_replace.
  py_unfold. cbn. rewrite !io_ok. cbn. rewrite lookup_insert_eq. reflexivity.
Qed.

(** With no failing file operation, a save leaves on disk what a load
    turns back into the value of [last_checked]. *)
Lemma save_checkpoint_persists (w : world) :
  load_checkpoint env (fst (save_checkpoint env w))
  = (fst (save_checkpoint env w), Returned (py_of_option (last_checked w))).
Proof.
  rewrite load_checkpoint_run. f_equal. f_equal.
  rewrite save_checkpoint_unfold. cbn [fst].
  destruct (save_checkpoint_attempt_files env
              (add_events [EvSaveCheckpoint (last_checked w)] w))
    as [(_ & Hc & _) | ([e He] & _)].
  - rewrite Hc. cbn [add_events last_checked set_trace].
    rewrite json_ok, lookup_singleton_eq. reflexivity.
  - rewrite save_checkpoint_attempt_ok in He. discriminate.
Qed.

(** The exit hook as a function of the state. *)
Lemma handle_exit_unfold (w : world) :
  _handle_exit env w
  = (fst (save_checkpoint env
            (add_events [EvStopSaver] (set_saver false true w))),
     Returned tt).
Proof.
  unfold _handle_exit, stop_checkpoint_saver. py_unfold. cbn beta iota zeta.
  change (set_trace (trace (set_saver false true w) ++ [EvStopSaver])
            (set_saver false true w))
    with (add_events [EvStopSaver] (set_saver false true w)).
  rewrite save_checkpoint_unfold. reflexivity.
Qed.

Lemma handle_exit_persists (w : world) :
  load_checkpoint env (fst (_handle_exit env w))
  = (fst (_handle_exit env w), Returned (py_of_option (last_checked w)))
  /\ last_checked (fst (_handle_exit env w)) = last_checked w
  /\ count_requests (trace (fst (_handle_exit env w)))
     = count_requests (trace w).
Proof.
  rewrite handle_exit_unfold. cbn [fst]. split; [|split].
  - rewrite save_checkpoint_persists. reflexivity.
  - pose proof (save_checkpoint_state env
                  (add_events [EvStopSaver] (set_saver false true w)))
      as (_ & _ & Hl & _).
    cbn zeta in Hl. rewrite Hl. reflexivity.
  - pose proof (save_checkpoint_state env
                  (add_events [EvStopSaver] (set_saver false true w)))
      as (_ & Ht & _).
    cbn zeta in Ht. rewrite Ht. cbn [add_events trace set_trace set_saver].
    unfold count_requests. rewrite !List.filter_app, !length_app. cbn. lia.
Qed.

(** A run that ends has run the exit hook last. *)
Lemma run_script_ends_with_hook (pool : nat -> list string -> py unit)
    (w : world) :
  snd (run_script cfg env pool w) <> Diverged ->
  exists wm,
    fst (run_script cfg env pool w) = fst (_handle_exit env wm)
    /\ last_checked (fst (run_script cfg env pool w)) = last_checked wm.
Proof.
  unfold run_script.
  destruct (main cfg env pool w) as [wm [a|e|]];
    try (intros _; exists wm; rewrite !handle_exit_unfold; cbn;
         split; [reflexivity|];
         pose proof (save_checkpoint_state env
                       (add_events [EvStopSaver] (set_saver false true wm)))
           as (_ & _ & Hl & _);
         cbn zeta in Hl; rewrite Hl; reflexivity).
  cbn. intros H. exfalso. apply H. reflexivity.
Qed.

End Exit.

(** X17. When no file operation fails, a run that ends - normally, with an
    exception or on a usage error, and whatever the thread pool did -
    leaves on disk the checkpoint that [load_checkpoint] turns back into
    the last value of [last_checked].  The [json] library is taken to load
    what it dumped. *)
Theorem clean_exit_persists_last_checked (cfg : config) (env : environment)
    (pool : nat -> list string -> py unit) (w : world) :
  json_roundtrips env ->
  (forall t, io_fails env t = false) ->
  snd (run_script cfg env pool w) <> Diverged ->
  load_checkpoint env (fst (run_script cfg env pool w))
  = (fst (run_script cfg env pool w),
     Returned (py_of_option (last_checked (fst (run_script cfg env pool w))))).
Proof.
  intros Hjson Hio Hend.
  destruct (run_script_ends_with_hook cfg env pool w Hend) as (wm & Hfst & Hl).
  rewrite Hl, Hfst. apply handle_exit_persists; assumption.
Qed.

Lemma clean_exit_persists_last_checked_witness :
  json_roundtrips scenario_env
  /\ (forall t, io_fails scenario_env t = false)
  /\ snd (run_script ab_config scenario_env (sequential_pool scenario_env)
            fresh_world) <> Diverged
  /\ load_checkpoint scenario_env
       (fst (run_script ab_config scenario_env (sequential_pool scenario_env)
               fresh_world))
     = (fst (run_script ab_config scenario_env (sequential_pool scenario_env)
               fresh_world),
        Returned (py_of_option
                    (last_checked
                       (fst (run_script ab_config scenario_env
                               (sequential_pool scenario_env) fresh_world))))).
Proof.
  assert (Hj : json_roundtrips scenario_env)
    by (intros [s|]; cbn; unfold sample_dumps; rewrite lookup_singleton_eq;
        reflexivity).
  assert (Hio : forall t, io_fails scenario_env t = false)
    by (intros t; reflexivity).
  assert (Hd : snd (run_script ab_config scenario_env
                      (sequential_pool scenario_env) fresh_world) <> Diverged)
    by (vm_compute; discriminate).
  split; [exact Hj|]. split; [exact Hio|]. split; [exact Hd|].
  exact (clean_exit_persists_last_checked ab_config scenario_env
           (sequential_pool scenario_env) fresh_world Hj Hio Hd).
Defined.

Section Restart.

Variable cfg : config.
Variable env : environment.

Lemma start_checkpoint_saver_state (w : world) :
  snd (start_checkpoint_saver w) = Returned tt
  /\ clock (fst (start_checkpoint_saver w)) = clock w
  /\ last_checked (fst (start_checkpoint_saver w)) = last_checked w
  /\ fs (fst (start_checkpoint_saver w)) = fs w
  /\ count_requests (trace (fst (start_checkpoint_saver w)))
     = count_requests (trace w).
Proof.
  unfold start_checkpoint_saver, emit. destruct (negb (saver_alive w)); cbn.
  - repeat split. unfold count_requests.
    rewrite List.filter_app, length_app. cbn. lia.
  - repeat split.
Qed.

Lemma handle_exit_state (w : world) :
  snd (_handle_exit env w) = Returned tt
  /\ last_checked (fst (_handle_exit env w)) = last_checked w
  /\ count_requests (trace (fst (_handle_exit env w)))
     = count_requests (trace w).
Proof.
  destruct (handle_exit_run env w) as (w' & Hrun & Ht & Hl & _).
  rewrite Hrun. cbn [fst snd]. split; [reflexivity|]. split; [exact Hl|].
  rewrite Ht. unfold count_requests.
  rewrite List.filter_app, length_app. cbn. lia.
Qed.

Lemma deliver_sigterms_state (n : nat) (w : world) :
  snd (deliver_sigterms env n w) = Returned tt
  /\ last_checked (fst (deliver_sigterms env n w)) = last_checked w
  /\ count_requests (trace (fst (deliver_sigterms env n w)))
     = count_requests (trace w).
Proof.
  revert w. induction n as [|n IH]; intros w; cbn [deliver_sigterms].
  - repeat split.
  - py_unfold. destruct (handle_exit_state w) as (Hr & Hl & Hc).
    destruct (_handle_exit env w) as [w1 o1]. cbn [fst snd] in *. subst o1.
    destruct (IH w1) as (Hr' & Hl' & Hc'). rewrite Hr', Hl', Hc'. auto.
Qed.

Lemma sequential_pool_exhausted (n : nat) (w : world) :
  sequential_pool env n [] w = (w, Returned tt).
Proof.
  induction n as [|n IH]; cbn [sequential_pool]; [reflexivity|].
  py_unfold. unfold in_future. cbn. exact IH.
Qed.

(** With nothing left to enumerate, main returns without a request and
    without touching [last_checked]. *)
Lemma main_without_candidates (threads : Z) (v : pyvalue) (w : world) :
  (forall t, io_fails env t = false) ->
  argv_threads env = Some threads ->
  (0 < threads)%Z ->
  load_checkpoint env w = (w, Returned v) ->
  generate_usernames cfg v = [] ->
  snd (main cfg env (sequential_pool env) w) = Returned tt
  /\ last_checked (fst (main cfg env (sequential_pool env) w))
     = last_checked w
  /\ count_requests (trace (fst (main cfg env (sequential_pool env) w)))
     = count_requests (trace w).
Proof.
  intros Hio Hargv Hpos Hload Hgen. unfold main, parse_args. rewrite Hargv.
  unfold mbind, py_bind, mret, py_ret. rewrite Hload.
  destruct (start_checkpoint_saver_state w) as (Hs & _ & Hl1 & _ & Hc1).
  destruct (start_checkpoint_saver w) as [w1 o1]. cbn [fst snd] in *. subst o1.
  unfold try_finally, main_try_block, open_output, thread_pool_executor.
  rewrite Hgen. unfold mbind, py_bind, mret, py_ret. rewrite Hio.
  destruct (Z.leb_spec threads 0) as [Hle|_]; [lia|].
  rewrite sequential_pool_exhausted.
  destruct (deliver_sigterms_state (sigterms env) (set_clock (S (clock w1)) w1))
    as (Hr2 & Hl2 & Hc2).
  destruct (deliver_sigterms env _ _) as [w2 o2]. cbn [fst snd] in *. subst o2.
  change (main_finally_block env) with (_handle_exit env).
  destruct (handle_exit_state w2) as (Hr3 & Hl3 & Hc3).
  destruct (_handle_exit env w2) as [w3 o3]. cbn [fst snd] in *. subst o3.
  cbn in *. unfold count_requests in *.
  split; [reflexivity|]. split; congruence.
Qed.

End Restart.

(** X18. A run that ends in [parse_args] (a usage error, [--help]) still
    runs the exit hook, which saves the [last_checked] of a process that
    examined nothing: when the save succeeds, the checkpoint file then
    reads back as [None], whatever checkpoint it held before. *)
Theorem usage_error_resets_checkpoint (cfg : config) (env : environment)
    (pool : nat -> list string -> py unit) (w : world) :
  json_roundtrips env ->
  (forall t, io_fails env t = false) ->
  argv_threads env = None ->
  last_checked w = None ->
  snd (run_script cfg env pool w) = Raised SystemExit
  /\ snd (load_checkpoint env (fst (run_script cfg env pool w)))
     = Returned PyNone.
Proof.
  intros Hjson Hio Hargv Hnone.
  assert (Hrun : run_script cfg env pool w
                 = (fst (_handle_exit env w), Raised SystemExit)).
  { unfold run_script, main, parse_args. rewrite Hargv. py_unfold.
    cbn beta iota zeta. rewrite handle_exit_unfold. reflexivity. }
  rewrite Hrun. cbn [fst snd]. split; [reflexivity|].
  destruct (handle_exit_persists env Hjson Hio w) as (Hload & _).
  rewrite Hload, Hnone. reflexivity.
Qed.

Lemma usage_error_resets_checkpoint_witness :
  json_roundtrips usage_error_env
  /\ (forall t, io_fails usage_error_env t = false)
  /\ argv_threads usage_error_env = None
  /\ last_checked world_with_checkpoint = None
  /\ snd (run_script ab_config usage_error_env
            (sequential_pool usage_error_env) world_with_checkpoint)
     = Raised SystemExit
  /\ snd (load_checkpoint usage_error_env
            (fst (run_script ab_config usage_error_env
                    (sequential_pool usage_error_env) world_with_checkpoint)))
     = Returned PyNone.
Proof.
  assert (Hj : json_roundtrips usage_error_env)
    by (intros [s|]; cbn; unfold sample_dumps; rewrite lookup_singleton_eq;
        reflexivity).
  assert (Hio : forall t, io_fails usage_error_env t = false)
    by (intros t; reflexivity).
  assert (Ha : argv_threads usage_error_env = None) by reflexivity.
  assert (Hn : last_checked world_with_checkpoint = None) by reflexivity.
  split; [exact Hj|]. split; [exact Hio|]. split; [exact Ha|].
  split; [exact Hn|].
  exact (usage_error_resets_checkpoint ab_config usage_error_env
           (sequential_pool usage_error_env) world_with_checkpoint
           Hj Hio Ha Hn).
Defined.

(** The checkpoint "bb" that [world_with_checkpoint] holds. *)
Example checkpoint_before_usage_error :
  snd (load_checkpoint usage_error_env world_with_checkpoint)
  = Returned (PyStr "bb").
Proof. vm_compute. reflexivity. Qed.

(** X19. [main] does not put the loaded checkpoint into [last_checked]:
    when the generator resumed from the loaded value has nothing left to
    yield (the checkpoint is the last candidate, or names no candidate),
    the workers return at once, no request is made, and the saves at exit
    write the [last_checked] of a process that examined nothing, so the
    checkpoint file then reads back as [None]. *)
Theorem exhausted_resume_resets_checkpoint (cfg : config)
    (env : environment) (threads : Z) (v : pyvalue) (w : world) :
  json_roundtrips env ->
  (forall t, io_fails env t = false) ->
  argv_threads env = Some threads ->
  (0 < threads)%Z ->
  last_checked w = None ->
  load_checkpoint env w = (w, Returned v) ->
  generate_usernames cfg v = [] ->
  snd (run_script cfg env (sequential_pool env) w) = Returned tt
  /\ count_requests (trace (fst (run_script cfg env (sequential_pool env) w)))
     = count_requests (trace w)
  /\ snd (load_checkpoint env
            (fst (run_script cfg env (sequential_pool env) w)))
     = Returned PyNone.
Proof.
  intros Hjson Hio Hargv Hpos Hnone Hload Hgen.
  destruct (main_without_candidates cfg env threads v w
              Hio Hargv Hpos Hload Hgen) as (Hr & Hl & Hc).
  unfold run_script.
  destruct (main cfg env (sequential_pool env) w) as [wm om].
  cbn [fst snd] in *. subst om.
  destruct (handle_exit_persists env Hjson Hio wm) as (Hp & _ & Hcount).
  rewrite handle_exit_unfold in *. cbn [fst snd] in *.
  split; [reflexivity|]. split; [congruence|].
  rewrite Hp, Hl, Hnone. reflexivity.
Qed.

Lemma exhausted_resume_resets_checkpoint_witness :
  json_roundtrips calm_env
  /\ (forall t, io_fails calm_env t = false)
  /\ argv_threads calm_env = Some 5%Z
  /\ (0 < 5)%Z
  /\ last_checked world_with_checkpoint = None
  /\ load_checkpoint calm_env world_with_checkpoint
     = (world_with_checkpoint, Returned (PyStr "bb"))
  /\ generate_usernames ab_config (PyStr "bb") = []
  /\ snd (run_script ab_config calm_env (sequential_pool calm_env)
            world_with_checkpoint) = Returned tt
  /\ count_requests
       (trace (fst (run_script ab_config calm_env (sequential_pool calm_env)
                      world_with_checkpoint)))
     = count_requests (trace world_with_checkpoint)
  /\ snd (load_checkpoint calm_env
            (fst (run_script ab_config calm_env (sequential_pool calm_env)
                    world_with_checkpoint)))
     = Returned PyNone.
Proof.
  assert (Hio : forall t, io_fails calm_env t = false)
    by (intros t; reflexivity).
  assert (Ha : argv_threads calm_env = Some 5%Z) by reflexivity.
  assert (Hp : (0 < 5)%Z) by reflexivity.
  assert (Hn : last_checked world_with_checkpoint = None) by reflexivity.
  assert (Hl : load_checkpoint calm_env world_with_checkpoint
               = (world_with_checkpoint, Returned (PyStr "bb")))
    by (vm_compute; reflexivity).
  assert (Hg : generate_usernames ab_config (PyStr "bb") = [])
    by reflexivity.
  split; [exact sample_json_roundtrips|]. split; [exact Hio|].
  split; [exact Ha|]. split; [exact Hp|]. split; [exact Hn|].
  split; [exact Hl|]. split; [exact Hg|].
  exact (exhausted_resume_resets_checkpoint ab_config calm_env 5
           (PyStr "bb") world_with_checkpoint
           sample_json_roundtrips Hio Ha Hp Hn Hl Hg).
Defined.

(** X20. With a thread count of zero or less the executor refuses to
    start: when the output file opens, the run ends with [ValueError]
    after the [finally] block and the exit hook, and no candidate is
    probed, whatever the pool would have done. *)
Theorem non_positive_thread_count_probes_nothing (cfg : config)
    (env : environment) (pool : nat -> list string -> py unit)
    (threads : Z) (w : world) :
  argv_threads env = Some threads ->
  (threads <= 0)%Z ->
  io_fails env (clock w) = false ->
  snd (run_script cfg env pool w) = Raised (Exception "ValueError")
  /\ count_requests (trace (fst (run_script cfg env pool w)))
     = count_requests (trace w).
Proof.
  intros Hargv Hle Hio. unfold run_script, main, parse_args. rewrite Hargv.
  unfold mbind, py_bind, mret, py_ret. rewrite load_checkpoint_run.
  destruct (start_checkpoint_saver_state w) as (Hs & Hk & _ & _ & Hc1).
  destruct (start_checkpoint_saver w) as [w1 o1]. cbn [fst snd] in *. subst o1.
  unfold try_finally, main_try_block, open_output, thread_pool_executor.
  unfold mbind, py_bind, mret, py_ret, raise. rewrite Hk, Hio.
  destruct (Z.leb_spec threads 0) as [_|Hgt]; [|lia].
  change (main_finally_block env) with (_handle_exit env).
  destruct (handle_exit_state env (set_clock (S (clock w)) w1))
    as (Hr2 & _ & Hc2).
  destruct (_handle_exit env (set_clock (S (clock w)) w1)) as [w2 o2].
  cbn [fst snd] in *. subst o2.
  destruct (handle_exit_state env w2) as (Hr3 & _ & Hc3).
  destruct (_handle_exit env w2) as [w3 o3]. cbn [fst snd] in *. subst o3.
  cbn in *. unfold count_requests in *. split; [reflexivity | congruence].
Qed.

Lemma non_positive_thread_count_probes_nothing_witness :
  argv_threads zero_threads_env = Some 0%Z
  /\ (0 <= 0)%Z
  /\ io_fails zero_threads_env (clock fresh_world) = false
  /\ snd (run_script ab_config zero_threads_env
            (sequential_pool zero_threads_env) fresh_world)
     = Raised (Exception "ValueError")
  /\ count_requests
       (trace (fst (run_script ab_config zero_threads_env
                      (sequential_pool zero_threads_env) fresh_world)))
     = count_requests (trace fresh_world).
Proof.
  assert (Ha : argv_threads zero_threads_env = Some 0%Z) by reflexivity.
  assert (Hle : (0 <= 0)%Z) by reflexivity.
  assert (Hio : io_fails zero_threads_env (clock fresh_world) = false)
    by reflexivity.
  split; [exact Ha|]. split; [exact Hle|]. split; [exact Hio|].
  exact (non_positive_thread_count_probes_nothing ab_config zero_threads_env
           (sequential_pool zero_threads_env) 0 fresh_world Ha Hle Hio).
Defined.
